(** * Multi_Display: gauge rendering and mode switching of the CAN-bus display sketch

    A shallow embedding of [examples/Multi_Display.ino] and the properties
    of its LED-ring renderer, display updater, colour wheel and button
    handler.

    Target and conventions.  The sketch runs on an UNO-footprint AVR board:
    [int] is 16 bits, [long] is 32 bits, [byte] is 8 bits and [float]
    (as well as [double]) is IEEE-754 binary32.  Integers are modelled
    as [Z] with the wrap-around of each C type written out; floats are
    [spec_float] values with the operations of [SpecFloat] at precision 24
    and [emax] 128.  Arrays of fixed size ([stagePT], [ledStages], [color])
    are one field per cell; the pixel buffer of the strip is a list updated
    by index.

    External collaborators (the NeoPixel driver, the u8g display driver,
    [millis], [digitalRead], the ECU query and the light sensor) are
    modelled through their interface only: the strip is its pixel buffer,
    the latched picture and the history of driver calls; the display is the
    history of pictures drawn; clock readings, pin levels and sensor
    answers are inputs of an iteration.  Serial diagnostics are not
    modelled.  Two operations the C language leaves undefined and that the
    sketch can reach, the conversion of a float outside the range of [long]
    and a division by zero inside [map], make the model return [None]. *)

From Stdlib Require Import ZArith Lia Bool List String.
From Stdlib Require Import Floats.SpecFloat.
From stdpp Require Import base option list list_numbers.

Local Open Scope Z_scope.

(** ** Machine integers *)

Module CInt.

(** Two's-complement wrap-around to [w] bits. *)
Definition wrap_signed (w : Z) (x : Z) : Z :=
  (x + 2 ^ (w - 1)) mod 2 ^ w - 2 ^ (w - 1).

Definition to_int (x : Z) : Z := wrap_signed 16 x.
Definition to_long (x : Z) : Z := wrap_signed 32 x.
Definition to_byte (x : Z) : Z := x mod 2 ^ 8.
Definition to_uint16 (x : Z) : Z := x mod 2 ^ 16.
Definition to_ulong (x : Z) : Z := x mod 2 ^ 32.

End CInt.
Import CInt.

(** ** The colour wheel *)

(** [Adafruit_NeoPixel::Color(uint8_t r, uint8_t g, uint8_t b)]: the three
    channels packed in a 32-bit word. *)
Definition Color (r g b : Z) : Z :=
  Z.lor (Z.lor (Z.shiftl (to_byte r) 16) (Z.shiftl (to_byte g) 8)) (to_byte b).

Definition red (c : Z) : Z := Z.land (Z.shiftr c 16) 255.
Definition green (c : Z) : Z := Z.land (Z.shiftr c 8) 255.
Definition blue (c : Z) : Z := Z.land c 255.

(** [uint32_t Wheel(byte WheelPos)]. *)
Definition Wheel (WheelPos : Z) : Z :=
  let WheelPos := to_byte WheelPos in
  if WheelPos <? 85 then
    Color (WheelPos * 3) (255 - WheelPos * 3) 0
  else if WheelPos <? 170 then
    let WheelPos := to_byte (WheelPos - 85) in
    Color (255 - WheelPos * 3) 0 (WheelPos * 3)
  else
    let WheelPos := to_byte (WheelPos - 170) in
    Color 0 (WheelPos * 3) (255 - WheelPos * 3).

(** Number of channels of a colour that are off. *)
Definition zero_channels (c : Z) : nat :=
  length (filter (fun x => x = 0) [red c; green c; blue c]).

(** The positions where one ramp ends and the next begins: the wheel is
    cut in bands of 85 positions, so these are 0, 85, 170 and 255. *)
Definition band_boundary (p : Z) : bool := p mod 85 =? 0.

(** ** Floats *)

Module F32.

Definition prec : Z := 24.
Definition emax : Z := 128.

(** Conversion of an integer to [float] (exact below [2 ^ 24]). *)
Definition of_Z (n : Z) : spec_float := binary_normalize prec emax n 0 false.

(** A decimal literal [n / d], rounded to the nearest float. *)
Definition literal (n d : Z) : spec_float :=
  let '(q, e, l) := SFdiv_core_binary prec emax n 0 d 0 in
  binary_round_aux prec emax false q e l.

Definition mul := SFmul prec emax.
Definition div := SFdiv prec emax.
Definition add := SFadd prec emax.
Definition sub := SFsub prec emax.

(** The C comparisons; each is false as soon as an operand is a NaN,
    except [!=], which is then true. *)
Definition ge (a b : spec_float) : bool := SFleb b a.
Definition lt (a b : spec_float) : bool := SFltb a b.
Definition ne (a b : spec_float) : bool := negb (SFeqb a b).

(** Conversion of a [float] to [long]: truncation toward zero, undefined
    for NaN, the infinities and values outside the range of [long]. *)
Definition truncate (f : spec_float) : option Z :=
  match f with
  | S754_zero _ => Some 0
  | S754_finite s m e =>
      let a := Z.shiftl (Zpos m) e in
      let x := if s then - a else a in
      if (- 2 ^ 31 <=? x) && (x <? 2 ^ 31) then Some x else None
  | _ => None
  end.

End F32.

(** The answer of the ECU query that stands for "no data": the literal
    [.9]. *)
Definition NO_DATA : spec_float := F32.literal 9 10.

(** ** The LED strip driver (external collaborator) *)

Definition NUMNEOPIXELS : Z := 16.

Inductive StripCall : Type :=
| CallSetPixelColor (n c : Z)
| CallShow.

(** [pixels] is the buffer in RAM (the colours as passed to the driver: the
    global brightness scaling is not modelled), [latched] what the ring
    displays since the last [show], [calls] the driver calls made so far,
    newest first. *)
Record Adafruit_NeoPixel : Type := {
  pixels : list Z;
  latched : list Z;
  calls : list StripCall
}.

Definition numPixels (st : Adafruit_NeoPixel) : Z := NUMNEOPIXELS.

(** [setPixelColor(uint16_t n, uint32_t c)]: a write outside the strip is
    ignored by the driver. *)
Definition setPixelColor (n c : Z) (st : Adafruit_NeoPixel) : Adafruit_NeoPixel :=
  let n := to_uint16 n in
  {| pixels := if n <? numPixels st then <[Z.to_nat n := c]> (pixels st) else pixels st;
     latched := latched st;
     calls := CallSetPixelColor n c :: calls st |}.

Definition show (st : Adafruit_NeoPixel) : Adafruit_NeoPixel :=
  {| pixels := pixels st; latched := pixels st; calls := CallShow :: calls st |}.

(** ** Counting loops *)

Section Loops.
Context {T : Type}.

Fixpoint count_up (rounds : nat) (i stop step : Z) (body : Z -> T -> T) (t : T) : T :=
  match rounds with
  | O => t
  | S rounds =>
      if i <? stop then count_up rounds (i + step) stop step body (body i t) else t
  end.

(** [for (int i = start; i < stop; i = i + step) body]; with [step >= 1]
    the loop is over after at most [stop - start] rounds. *)
Definition for_up (start stop step : Z) (body : Z -> T -> T) (t : T) : T :=
  count_up (Z.to_nat (stop - start)) start stop step body t.

Fixpoint count_down (rounds : nat) (i stop : Z) (body : Z -> T -> T) (t : T) : T :=
  match rounds with
  | O => t
  | S rounds =>
      if i >=? stop then count_down rounds (i - 1) stop body (body i t) else t
  end.

(** [for (int i = start; i >= stop; i--) body]: at most
    [start - stop + 1] rounds. *)
Definition for_down (start stop : Z) (body : Z -> T -> T) (t : T) : T :=
  count_down (Z.to_nat (start - stop + 1)) start stop body t.
End Loops.

(** [clearLEDs()]. *)
Definition clearLEDs (st : Adafruit_NeoPixel) : Adafruit_NeoPixel :=
  show (for_up 0 (numPixels st) 1 (fun i st => setPixelColor i 0 st) st).

(** ** The display (external collaborator) *)

(** What a picture loop of the sketch draws: the static message, or a label
    with a value formatted by [dtostrf] at a width and a precision. *)
Inductive Picture : Type :=
| NoData
| Reading (label : string) (displayValue : spec_float) (width precision : Z).

(** ** The globals of the sketch *)

Record Levels : Type := {
  stagePT_0 : Z;
  stagePT_1 : Z;
  ledStages_0 : Z;
  ledStages_1 : Z;
  ledStages_2 : Z;
  ledStages_3 : Z;
  color_0 : Z;
  color_1 : Z;
  color_2 : Z;
  alarmOutsideRange : bool
}.

Record Sketch : Type := {
  levels : Levels;
  strip : Adafruit_NeoPixel;
  oled : list Picture;            (* pictures drawn so far, newest first *)
  button_was_pressed : bool;
  prevDispTime : Z;
  prevBlinkTime : Z;
  warningState : Z;
  lastDisplayValue : spec_float;
  prev_range : Z;
  gaugeType : Z
}.

Definition dispInterval : Z := 100.
Definition blinkInterval : Z := 150.

Definition set_levels_of (l : Levels) (s : Sketch) : Sketch :=
  {| levels := l; strip := strip s; oled := oled s;
     button_was_pressed := button_was_pressed s;
     prevDispTime := prevDispTime s; prevBlinkTime := prevBlinkTime s;
     warningState := warningState s; lastDisplayValue := lastDisplayValue s;
     prev_range := prev_range s; gaugeType := gaugeType s |}.

Definition set_strip (st : Adafruit_NeoPixel) (s : Sketch) : Sketch :=
  {| levels := levels s; strip := st; oled := oled s;
     button_was_pressed := button_was_pressed s;
     prevDispTime := prevDispTime s; prevBlinkTime := prevBlinkTime s;
     warningState := warningState s; lastDisplayValue := lastDisplayValue s;
     prev_range := prev_range s; gaugeType := gaugeType s |}.

Definition set_oled (o : list Picture) (s : Sketch) : Sketch :=
  {| levels := levels s; strip := strip s; oled := o;
     button_was_pressed := button_was_pressed s;
     prevDispTime := prevDispTime s; prevBlinkTime := prevBlinkTime s;
     warningState := warningState s; lastDisplayValue := lastDisplayValue s;
     prev_range := prev_range s; gaugeType := gaugeType s |}.

Definition set_button_was_pressed (b : bool) (s : Sketch) : Sketch :=
  {| levels := levels s; strip := strip s; oled := oled s;
     button_was_pressed := b;
     prevDispTime := prevDispTime s; prevBlinkTime := prevBlinkTime s;
     warningState := warningState s; lastDisplayValue := lastDisplayValue s;
     prev_range := prev_range s; gaugeType := gaugeType s |}.

Definition set_prevDispTime (t : Z) (s : Sketch) : Sketch :=
  {| levels := levels s; strip := strip s; oled := oled s;
     button_was_pressed := button_was_pressed s;
     prevDispTime := t; prevBlinkTime := prevBlinkTime s;
     warningState := warningState s; lastDisplayValue := lastDisplayValue s;
     prev_range := prev_range s; gaugeType := gaugeType s |}.

Definition set_prevBlinkTime (t : Z) (s : Sketch) : Sketch :=
  {| levels := levels s; strip := strip s; oled := oled s;
     button_was_pressed := button_was_pressed s;
     prevDispTime := prevDispTime s; prevBlinkTime := t;
     warningState := warningState s; lastDisplayValue := lastDisplayValue s;
     prev_range := prev_range s; gaugeType := gaugeType s |}.

Definition set_warningState (w : Z) (s : Sketch) : Sketch :=
  {| levels := levels s; strip := strip s; oled := oled s;
     button_was_pressed := button_was_pressed s;
     prevDispTime := prevDispTime s; prevBlinkTime := prevBlinkTime s;
     warningState := w; lastDisplayValue := lastDisplayValue s;
     prev_range := prev_range s; gaugeType := gaugeType s |}.

Definition set_lastDisplayValue (v : spec_float) (s : Sketch) : Sketch :=
  {| levels := levels s; strip := strip s; oled := oled s;
     button_was_pressed := button_was_pressed s;
     prevDispTime := prevDispTime s; prevBlinkTime := prevBlinkTime s;
     warningState := warningState s; lastDisplayValue := v;
     prev_range := prev_range s; gaugeType := gaugeType s |}.

Definition set_prev_range (r : Z) (s : Sketch) : Sketch :=
  {| levels := levels s; strip := strip s; oled := oled s;
     button_was_pressed := button_was_pressed s;
     prevDispTime := prevDispTime s; prevBlinkTime := prevBlinkTime s;
     warningState := warningState s; lastDisplayValue := lastDisplayValue s;
     prev_range := r; gaugeType := gaugeType s |}.

Definition set_gaugeType (g : Z) (s : Sketch) : Sketch :=
  {| levels := levels s; strip := strip s; oled := oled s;
     button_was_pressed := button_was_pressed s;
     prevDispTime := prevDispTime s; prevBlinkTime := prevBlinkTime s;
     warningState := warningState s; lastDisplayValue := lastDisplayValue s;
     prev_range := prev_range s; gaugeType := g |}.

(** The globals as their initialisers leave them, with the strip as
    [setup] leaves it (all pixels off); the histories start empty. *)
Definition initial : Sketch :=
  {| levels := {| stagePT_0 := 4200; stagePT_1 := 6200;
                  ledStages_0 := NUMNEOPIXELS - 1; ledStages_1 := 5;
                  ledStages_2 := 2; ledStages_3 := 0;
                  color_0 := 0; color_1 := 0; color_2 := 0;
                  alarmOutsideRange := true |};
     strip := {| pixels := replicate 16 0; latched := replicate 16 0; calls := [] |};
     oled := [];
     button_was_pressed := true;
     prevDispTime := 0; prevBlinkTime := 0;
     warningState := 0; lastDisplayValue := S754_zero false;
     prev_range := 100; gaugeType := 1 |}.

(** ** The button *)

(** [handle_button()]; [pin] is the level read on the button pin
    ([true] for HIGH), and a low pin means "pressed". *)
Definition handle_button (pin : bool) (s : Sketch) : Sketch :=
  let button_now_pressed := negb pin in
  let event := button_now_pressed && negb (button_was_pressed s) in
  let s := set_button_was_pressed button_now_pressed s in
  if event then
    let s := set_gaugeType (to_int (gaugeType s + 1)) s in
    if gaugeType s >? 8 then set_gaugeType 1 s else s
  else s.

(** ** Gauge configuration *)

(** [set_levels(stagePT0, stagePT1, stage0, stage1, color0, color1, color2,
    alarm)].  The default arguments of the C++ declaration are
    [4200, 6200, 5, 2, 255, 48, 86, 1]; a call site that omits arguments is
    written here with the defaults filled in. *)
Definition set_levels (stagePT0 stagePT1 stage0 stage1 color0 color1 color2 : Z)
    (alarm : bool) (s : Sketch) : Sketch :=
  set_levels_of
    {| stagePT_0 := stagePT0;
       stagePT_1 := stagePT1;
       ledStages_0 := ledStages_0 (levels s);
       ledStages_1 := stage0;
       ledStages_2 := stage1;
       ledStages_3 := ledStages_3 (levels s);
       color_0 := Wheel (Z.land color0 255);
       color_1 := Wheel (Z.land color1 255);
       color_2 := Wheel (Z.land color2 255);
       alarmOutsideRange := alarm |} s.

(** The three direct assignments of the fuel-level case. *)
Definition fuel_overrides (s : Sketch) : Sketch :=
  let l := levels s in
  set_levels_of
    {| stagePT_0 := 1;
       stagePT_1 := 100;
       ledStages_0 := ledStages_0 l;
       ledStages_1 := numPixels (strip s);
       ledStages_2 := ledStages_2 l;
       ledStages_3 := ledStages_3 l;
       color_0 := color_0 l; color_1 := color_1 l; color_2 := color_2 l;
       alarmOutsideRange := alarmOutsideRange l |} s.

(** ** The display updater *)

Definition draw (p : Picture) (s : Sketch) : Sketch := set_oled (p :: oled s) s.

(** [OLED_update(displayValue, width, precision, label)]; [now] is what
    [millis()] answers. *)
Definition OLED_update (now : Z) (displayValue : spec_float) (width precision : Z)
    (label : string) (s : Sketch) : Sketch :=
  if F32.ne (lastDisplayValue s) displayValue then
    let s := set_lastDisplayValue displayValue s in
    let currentMillis := to_ulong now in
    if to_ulong (currentMillis - to_ulong (prevDispTime s)) >? to_ulong dispInterval then
      let s := set_prevDispTime (to_long currentMillis) s in
      draw (Reading label displayValue width precision) s
    else s
  else s.

(** ** The LED-ring renderer *)

(** [long map(long x, long in_min, long in_max, long out_min,
    long out_max)] of the Arduino core, which is
    [(x - in_min) * (out_max - out_min) / (in_max - in_min) + out_min]
    in [long] arithmetic. *)
Definition map (x in_min in_max out_min out_max : Z) : option Z :=
  let d := to_long (in_max - in_min) in
  if d =? 0 then None
  else
    let product := to_long (to_long (x - in_min) * to_long (out_max - out_min)) in
    Some (to_long (to_long (product ÷ d) + out_min)).

(** The macro [constrain(amt, low, high)] of the Arduino core. *)
Definition constrain (amt low high : Z) : Z :=
  if amt <? low then low else if amt >? high then high else amt.

(** The colour a lit pixel gets from its position (the body of the drawing
    loop). *)
Definition paint (l : Levels) (ledNum : Z) (st : Adafruit_NeoPixel) : Adafruit_NeoPixel :=
  if ledNum >=? ledStages_1 l then setPixelColor ledNum (color_0 l) st
  else if (ledNum <? ledStages_1 l) && (ledNum >=? ledStages_2 l) then
    setPixelColor ledNum (color_1 l) st
  else if ledNum <? ledStages_2 l then setPixelColor ledNum (color_2 l) st
  else st.

(** First branch, once [numOfLEDs] is known. *)
Definition render_in_range (numOfLEDs : Z) (s : Sketch) : Sketch :=
  if negb (prev_range s =? numOfLEDs) then
    let s := set_prev_range numOfLEDs s in
    let s := set_strip (clearLEDs (strip s)) s in
    let s := set_strip
               (for_down (to_int (numPixels (strip s) - 1)) numOfLEDs
                  (paint (levels s)) (strip s)) s in
    set_strip (show (strip s)) s
  else s.

(** The value [displayValueConstrained] of the first branch: the reading
    converted to [long], mapped, narrowed to [int] and constrained. *)
Definition displayValueConstrained_of (l : Levels) (displayValue : spec_float) : option Z :=
  x ← F32.truncate displayValue;
  m ← map x (stagePT_0 l) (stagePT_1 l) 0 NUMNEOPIXELS;
  let displayValueMapped := to_int m in
  Some (to_int (constrain displayValueMapped 0 NUMNEOPIXELS)).

(** [numOfLEDs], the index of the lowest pixel the first branch lights. *)
Definition numOfLEDs_of (l : Levels) (displayValue : spec_float) : option Z :=
  displayValueConstrained ← displayValueConstrained_of l displayValue;
  Some (to_int (NUMNEOPIXELS - 1 - displayValueConstrained)).

(** Second branch: the blinking alarm. *)
Definition render_alarm (currentMillis : Z) (s : Sketch) : Sketch :=
  let s := set_prev_range 8 s in
  if to_ulong (currentMillis - to_ulong (prevBlinkTime s)) >? to_ulong blinkInterval then
    let s := set_prevBlinkTime (to_long currentMillis) s in
    let n := numPixels (strip s) in
    let c := color_2 (levels s) in
    let s :=
      if warningState s =? 0 then
        let s := set_warningState 1 s in
        let s := set_strip (for_up 0 n 2 (fun i st => setPixelColor i c st) (strip s)) s in
        set_strip (for_up 1 n 2 (fun i st => setPixelColor i 0 st) (strip s)) s
      else
        let s := set_warningState 0 s in
        let s := set_strip (for_up 1 n 2 (fun i st => setPixelColor i c st) (strip s)) s in
        set_strip (for_up 0 n 2 (fun i st => setPixelColor i 0 st) (strip s)) s in
    set_strip (show (strip s)) s
  else s.

(** Third branch: below the range. *)
Definition render_below (s : Sketch) : Sketch :=
  if negb (prev_range s =? 100) then
    let s := set_prev_range 100 s in
    set_strip (clearLEDs (strip s)) s
  else s.

(** The two conditions of [ledStrip_update]. *)
Definition in_range_cond (l : Levels) (displayValue : spec_float) : bool :=
  F32.ge displayValue (F32.of_Z (stagePT_0 l))
  && (F32.lt displayValue (F32.of_Z (stagePT_1 l)) || negb (alarmOutsideRange l)).

Definition alarm_cond (l : Levels) (displayValue : spec_float) : bool :=
  F32.ge displayValue (F32.of_Z (stagePT_1 l)) && alarmOutsideRange l.

(** [ledStrip_update(displayValue)]; [now] is what [millis()] answers. *)
Definition ledStrip_update (now : Z) (displayValue : spec_float) (s : Sketch) : option Sketch :=
  let currentMillis := to_ulong now in
  if in_range_cond (levels s) displayValue then
    numOfLEDs ← numOfLEDs_of (levels s) displayValue;
    Some (render_in_range numOfLEDs s)
  else if alarm_cond (levels s) displayValue then
    Some (render_alarm currentMillis s)
  else
    Some (render_below s).

(** ** The main loop *)

(** The PIDs the sketch asks the ECU for. *)
Inductive PID : Type :=
| ENGINE_RPM | VEHICLE_SPEED | MAF_SENSOR | MAP | BAROMETRIC
| FUEL_LEVEL | ENGINE_COOLANT_TEMP | AMBIENT_TEMP.

(** What the outside world answers during one iteration: the ECU to each
    query, the light sensor, the clock to the display updater and then to
    the renderer, and the button pin. *)
Record Inputs : Type := {
  ecu_req : PID -> spec_float;
  GetLightIntensity : Z;
  millis_display : Z;
  millis_strip : Z;
  digitalRead : bool
}.

(** The two calls that end every case of the [switch]. *)
Definition gauge (now_d now_s : Z) (displayValue : spec_float) (width precision : Z)
    (label : string) (s : Sketch) : option Sketch :=
  ledStrip_update now_s displayValue (OLED_update now_d displayValue width precision label s).

(** One pass of [loop()]. *)
Definition loop (i : Inputs) (s : Sketch) : option Sketch :=
  let show_gauge := gauge (millis_display i) (millis_strip i) in
  s ← match gaugeType s with
      | 1 =>
          let rpm := ecu_req i ENGINE_RPM in
          if F32.ne rpm NO_DATA then
            let s := set_levels 4200 6200 5 2 255 48 86 true s in
            show_gauge rpm 4 0 "RPM"%string s
          else Some (draw NoData s)
      | 2 =>
          let vss := ecu_req i VEHICLE_SPEED in
          if F32.ne vss NO_DATA then
            let vss := F32.mul vss (F32.literal 62137119 100000000) in
            let s := set_levels 1 100 5 2 255 48 86 true s in
            show_gauge vss 3 1 "Speed (mph)"%string s
          else Some (draw NoData s)
      | 3 =>
          let vss := ecu_req i VEHICLE_SPEED in
          let maf := ecu_req i MAF_SENSOR in
          if F32.ne vss NO_DATA || F32.ne maf NO_DATA then
            let instantMPG :=
              F32.div
                (F32.mul
                   (F32.mul
                      (F32.mul (F32.mul (F32.literal 147 10) (F32.literal 617 100))
                         (F32.of_Z 454))
                      vss)
                   (F32.literal 6213 10000))
                (F32.mul (F32.of_Z 3600) maf) in
            let s := set_levels 1 50 14 12 48 10 0 false s in
            show_gauge instantMPG 4 1 "Instant MPG"%string s
          else Some (draw NoData s)
      | 5 =>
          let fuel := ecu_req i FUEL_LEVEL in
          if F32.ne fuel NO_DATA then
            let s := set_levels 1 100 14 12 86 48 0 false s in
            let s := fuel_overrides s in
            show_gauge fuel 4 1 "Fuel Level (%)"%string s
          else Some (draw NoData s)
      | 6 =>
          let coolant := ecu_req i ENGINE_COOLANT_TEMP in
          if F32.ne coolant NO_DATA then
            let coolant := F32.add (F32.mul coolant (F32.literal 18 10)) (F32.of_Z 32) in
            let s := set_levels 190 220 5 2 0 48 86 false s in
            show_gauge coolant 4 1 "Coolant (f)"%string s
          else Some (draw NoData s)
      | 7 =>
          let temp := ecu_req i AMBIENT_TEMP in
          if F32.ne temp NO_DATA then
            let temp := F32.add (F32.mul temp (F32.literal 18 10)) (F32.of_Z 32) in
            let s := set_levels 85 110 5 2 0 48 86 false s in
            show_gauge temp 4 1 "Ambient (f)"%string s
          else Some (draw NoData s)
      | 8 =>
          let lux := F32.of_Z (to_uint16 (GetLightIntensity i)) in
          let s := set_levels 0 10000 5 2 0 48 86 false s in
          show_gauge lux 5 0 "LUX"%string s
      | _ => (* case 4 and default *)
          let manifoldAP := ecu_req i MAP in
          let bar := ecu_req i BAROMETRIC in
          if F32.ne manifoldAP NO_DATA || F32.ne bar NO_DATA then
            let boost :=
              F32.mul (F32.sub manifoldAP bar) (F32.literal 1450377377 10000000000) in
            let s := set_levels (-15) 10 12 7 20 10 0 false s in
            show_gauge boost 4 1 "Boost (psi)"%string s
          else Some (draw NoData s)
      end;
  Some (handle_button (digitalRead i) s).

(** Iterating the button handler over successive pin samples. *)
Definition handle_buttons (pins : list bool) (s : Sketch) : Sketch :=
  foldl (fun s pin => handle_button pin s) s pins.

(** ** Observations used in the statements *)

(** Number of pixels of the buffer that are lit (not black). *)
Definition lit_pixels (st : Adafruit_NeoPixel) : nat :=
  length (filter (fun c => c <> 0) (pixels st)).

(** The blink bit after one toggle. *)
Definition toggled (w : Z) : Z := if w =? 0 then 1 else 0.

(** Number of pictures drawn between two states. *)
Definition redraws (before after : Sketch) : Z :=
  Z.of_nat (length (oled after)) - Z.of_nat (length (oled before)).

(** Time elapsed from [prev] to [now] on the 32-bit millisecond clock. *)
Definition elapsed_since (prev now : Z) : Z := to_ulong (now - prev).

(** The strip object is the 16-pixel ring of the sketch. *)
Definition ring (st : Adafruit_NeoPixel) : Prop :=
  length (pixels st) = Z.to_nat NUMNEOPIXELS.

(** The three colours of the configuration are visible ones. *)
Definition visible_colors (l : Levels) : Prop :=
  color_0 l <> 0 /\ color_1 l <> 0 /\ color_2 l <> 0.

(** The colour of a lit pixel by its position: at or above the first
    boundary, between the two, below the second. *)
Definition stage_color (l : Levels) (ledNum : Z) : Z :=
  if ledNum >=? ledStages_1 l then color_0 l
  else if ledNum >=? ledStages_2 l then color_1 l
  else color_2 l.

(** The tachometer configuration on a fresh sketch. *)
Definition tachometer : Sketch := set_levels 4200 6200 5 2 255 48 86 true initial.

(** The PIDs each case of the [switch] asks for (none for the light
    sensor). *)
Definition queries (g : Z) : list PID :=
  match g with
  | 1 => [ENGINE_RPM]
  | 2 => [VEHICLE_SPEED]
  | 3 => [VEHICLE_SPEED; MAF_SENSOR]
  | 5 => [FUEL_LEVEL]
  | 6 => [ENGINE_COOLANT_TEMP]
  | 7 => [AMBIENT_TEMP]
  | 8 => []
  | _ => [MAP; BAROMETRIC]
  end.

(** An iteration at clock [now] with the button released, the ECU
    answering [answer]. *)
Definition iteration (answer : PID -> spec_float) (now : Z) : Inputs :=
  {| ecu_req := answer; GetLightIntensity := 0;
     millis_display := now; millis_strip := now; digitalRead := true |}.

(** A sample reads "pressed" when the pin is low. *)
Definition pressed (pin : bool) : Prop := pin = false.

(** The mode after a press, for a mode in [1..8]. *)
Definition next_mode (g : Z) : Z := if g =? 8 then 1 else g + 1.

(** The configuration each case of the [switch] applies before it renders
    (the [set_levels] call of the case and, for the fuel level, the
    assignments that follow it). *)
Definition mode_config (g : Z) (s : Sketch) : Sketch :=
  match g with
  | 1 => set_levels 4200 6200 5 2 255 48 86 true s
  | 2 => set_levels 1 100 5 2 255 48 86 true s
  | 3 => set_levels 1 50 14 12 48 10 0 false s
  | 5 => fuel_overrides (set_levels 1 100 14 12 86 48 0 false s)
  | 6 => set_levels 190 220 5 2 0 48 86 false s
  | 7 => set_levels 85 110 5 2 0 48 86 false s
  | 8 => set_levels 0 10000 5 2 0 48 86 false s
  | _ => set_levels (-15) 10 12 7 20 10 0 false s
  end.

(** The order the level boundaries keep in every mode. *)
Definition levels_ordered (l : Levels) : Prop :=
  0 <= ledStages_2 l <= ledStages_1 l /\ ledStages_1 l <= NUMNEOPIXELS.

(** One click of the button as the loop samples it: a released sample
    followed by a pressed one. *)
Definition click : list bool := [true; false].

Fixpoint clicks (n : nat) : list bool :=
  match n with
  | O => []
  | S n => click ++ clicks n
  end.

(** The 16-pixel buffer that alternates [a] (even pixels) and [b] (odd
    pixels). *)
Definition alternating (a b : Z) : list Z :=
  [a; b; a; b; a; b; a; b; a; b; a; b; a; b; a; b].

(** Every write of the strip has been committed. *)
Definition committed (st : Adafruit_NeoPixel) : Prop := latched st = pixels st.

(** The values [prev_range] takes: an index of the drawing loop, or the
    marker of the cleared strip. *)
Definition prev_range_ok (r : Z) : Prop :=
  -1 <= r <= NUMNEOPIXELS - 1 \/ r = 100.

(** A driver call that stays inside the strip. *)
Definition in_bounds_call (c : StripCall) : Prop :=
  match c with
  | CallSetPixelColor n _ => 0 <= n < NUMNEOPIXELS
  | CallShow => True
  end.

(** Successive passes of [loop], one per element of [inputs]. *)
Fixpoint run (inputs : list Inputs) (s : Sketch) : option Sketch :=
  match inputs with
  | [] => Some s
  | i :: inputs => s ← loop i s; run inputs s
  end.

Arguments Wheel : simpl never.
Arguments F32.of_Z : simpl never.
Arguments F32.literal : simpl never.
Arguments F32.truncate : simpl never.
Arguments clearLEDs : simpl never.
Arguments for_up : simpl never.
Arguments for_down : simpl never.

(** * Properties *)

(** Case analysis on the mode along the cases of the [switch]. *)
Ltac split_mode g :=
  let q := fresh "q" in
  destruct g as [|q|q];
  repeat match goal with
         | |- context [match ?p with xI _ => _ | xO _ => _ | xH => _ end] => destruct p
         end.

(** Reading a field of an updated record. *)
Ltac fields :=
  cbn [levels strip oled button_was_pressed prevDispTime prevBlinkTime warningState
       lastDisplayValue prev_range gaugeType
       set_levels_of set_strip set_oled set_button_was_pressed set_prevDispTime
       set_prevBlinkTime set_warningState set_lastDisplayValue set_prev_range
       set_gaugeType draw] in *.


(** ** Machine integers *)

Section CIntFacts.

Lemma to_int_id x : - 2 ^ 15 <= x < 2 ^ 15 -> to_int x = x.
Proof.
  intros H. unfold to_int, wrap_signed.
  rewrite Z.mod_small; lia.
Qed.

Lemma to_long_id x : - 2 ^ 31 <= x < 2 ^ 31 -> to_long x = x.
Proof.
  intros H. unfold to_long, wrap_signed.
  rewrite Z.mod_small; lia.
Qed.

Lemma to_ulong_id_small x : 0 <= x < 2 ^ 32 -> to_ulong x = x.
Proof. intros H. unfold to_ulong. apply Z.mod_small; lia. Qed.

Lemma to_ulong_range x : 0 <= to_ulong x < 2 ^ 32.
Proof. unfold to_ulong. apply Z.mod_pos_bound. lia. Qed.

Lemma to_ulong_to_long b : to_ulong (to_long b) = to_ulong b.
Proof.
  unfold to_ulong, to_long, wrap_signed.
  replace ((b + 2 ^ (32 - 1)) mod 2 ^ 32 - 2 ^ (32 - 1))
    with ((b + 2 ^ (32 - 1)) mod 2 ^ 32 + (- 2 ^ (32 - 1))) by lia.
  rewrite Zplus_mod_idemp_l. f_equal. lia.
Qed.

(** The subtraction the two timers perform. *)
Lemma timer_elapsed now prev :
  to_ulong (to_ulong now - to_ulong prev) = elapsed_since prev now.
Proof.
  unfold elapsed_since, to_ulong.
  rewrite Zminus_mod_idemp_l, Zminus_mod_idemp_r. reflexivity.
Qed.

(** Right after a timer is rearmed at [now], a reading [d] later shows
    [d] elapsed. *)
Lemma elapsed_after_rearm now d :
  0 <= d < 2 ^ 32 -> elapsed_since (to_long (to_ulong now)) (now + d) = d.
Proof.
  intros Hd. unfold elapsed_since, to_long, wrap_signed, to_ulong.
  set (M := 2 ^ 32). set (H := 2 ^ (32 - 1)).
  assert (HM : M = 4294967296) by reflexivity.
  pose proof (Z.div_mod now M ltac:(lia)) as E1.
  pose proof (Z.div_mod (now mod M + H) M ltac:(lia)) as E2.
  replace (now + d - ((now mod M + H) mod M - H))
    with (d + (now / M + (now mod M + H) / M) * M) by lia.
  rewrite Z_mod_plus_full. apply Z.mod_small. lia.
Qed.

(** A reading [d] later on a timer that has not been rearmed. *)
Lemma elapsed_later prev now d :
  0 <= d -> elapsed_since prev now + d < 2 ^ 32 ->
  elapsed_since prev (now + d) = elapsed_since prev now + d.
Proof.
  unfold elapsed_since, to_ulong. intros Hd Hlt.
  replace (now + d - prev) with (now - prev + d) by lia.
  rewrite <- Zplus_mod_idemp_l.
  apply Z.mod_small.
  pose proof (Z.mod_pos_bound (now - prev) (2 ^ 32) ltac:(lia)). lia.
Qed.

End CIntFacts.

(** ** Float comparisons *)

Section FloatFacts.

Lemma SFcompare_Eq_sym a b : SFcompare a b = Some Eq -> SFcompare b a = Some Eq.
Proof.
  destruct a as [sa|sa| |sa ma ea], b as [sb|sb| |sb mb eb]; cbn;
    try discriminate; try reflexivity;
    try (destruct sa; discriminate); try (destruct sb; discriminate).
  - destruct sa, sb; intros H; try discriminate; reflexivity.
  - destruct sa, sb; try discriminate;
      destruct (ea ?= eb) eqn:Ee; try discriminate;
      apply Z.compare_eq in Ee; subst eb; rewrite Z.compare_refl;
      intros [= H].
    + destruct (Pos.compare_cont Eq ma mb) eqn:Em; try discriminate.
      apply Pos.compare_eq in Em. subst mb.
      now rewrite Pos.compare_cont_refl.
    + apply Pos.compare_eq in H. subst mb.
      now rewrite Pos.compare_cont_refl.
Qed.

(** A reading equal to a threshold is [>=] it and not [<] it. *)
Lemma float_eq_ge_not_lt v h :
  SFeqb v h = true -> F32.ge v h = true /\ F32.lt v h = false.
Proof.
  unfold SFeqb, F32.ge, F32.lt, SFleb, SFltb.
  destruct (SFcompare v h) as [[]|] eqn:E; try discriminate. intros _.
  now rewrite (SFcompare_Eq_sym _ _ E).
Qed.

(** The literals of the sketch in their binary32 encoding, and the
    conversions on two thresholds. *)
Example NO_DATA_encoding : NO_DATA = S754_finite false 15099494 (-24).
Proof. reflexivity. Qed.

Example NO_DATA_equals_itself : F32.ne NO_DATA NO_DATA = false.
Proof. reflexivity. Qed.

Example mph_factor_encoding :
  F32.literal 62137119 100000000 = S754_finite false 10424879 (-24).
Proof. reflexivity. Qed.

Example threshold_conversions :
  F32.truncate (F32.of_Z 4200) = Some 4200 /\ F32.truncate (F32.of_Z (-15)) = Some (-15).
Proof. split; reflexivity. Qed.

Example truncate_toward_zero :
  F32.truncate (F32.literal 147 10) = Some 14 /\
  F32.truncate (SFopp (F32.literal 147 10)) = Some (-14).
Proof. split; reflexivity. Qed.

End FloatFacts.

(** ** The colour wheel *)

Section WheelFacts.

(** A boolean check over the first [n] naturals settles the property on
    the whole interval. *)
Lemma check_below (P : Z -> bool) (n : Z) :
  forallb P (seqZ 0 n) = true -> forall p, 0 <= p < n -> P p = true.
Proof.
  intros Hall p Hp.
  rewrite forallb_forall in Hall. apply Hall.
  apply list_elem_of_In, elem_of_seqZ. lia.
Qed.

Lemma Wheel_byte p : Wheel (to_byte p) = Wheel p.
Proof.
  unfold Wheel. replace (to_byte (to_byte p)) with (to_byte p); [reflexivity|].
  unfold to_byte. now rewrite Z.mod_mod.
Qed.

(** No position of the wheel is black. *)
Lemma Wheel_visible p : Wheel p <> 0.
Proof.
  rewrite <- Wheel_byte.
  assert (Hb : 0 <= to_byte p < 256) by (unfold to_byte; apply Z.mod_pos_bound; lia).
  assert (Hall : forallb (fun q => negb (Wheel q =? 0)) (seqZ 0 256) = true)
    by (vm_compute; reflexivity).
  pose proof (check_below _ _ Hall _ Hb) as H.
  apply negb_true_iff in H. lia.
Qed.

(** At the four boundaries two channels are off, which is why they are
    set apart. *)
Lemma Wheel_boundaries :
  zero_channels (Wheel 0) = 2%nat /\ zero_channels (Wheel 85) = 2%nat /\
  zero_channels (Wheel 170) = 2%nat /\ zero_channels (Wheel 255) = 2%nat.
Proof. repeat split; reflexivity. Qed.

(** The wheel closes on itself. *)
Lemma Wheel_cyclic : Wheel 255 = Wheel 0.
Proof. reflexivity. Qed.

(** C8. For every input byte, exactly one of the red, green and blue
    channels of [Wheel]'s colour is 0, unless the position is a band
    boundary (0, 85, 170 or 255). *)
Theorem C8_wheel_one_channel_off (p : Z) :
  0 <= p <= 255 -> band_boundary p = false -> zero_channels (Wheel p) = 1%nat.
Proof.
  intros Hp Hb.
  assert (Hp' : 0 <= p < 256) by lia.
  assert (Hall : forallb
                   (fun q => band_boundary q || Nat.eqb (zero_channels (Wheel q)) 1)
                   (seqZ 0 256) = true)
    by (vm_compute; reflexivity).
  pose proof (check_below _ _ Hall p Hp') as H.
  cbv beta in H. apply orb_true_iff in H. destruct H as [H | H].
  - congruence.
  - now apply Nat.eqb_eq in H.
Qed.

Lemma C8_wheel_witness :
  0 <= 100 <= 255 /\ band_boundary 100 = false /\ zero_channels (Wheel 100) = 1%nat.
Proof.
  split; [lia|]. split; [reflexivity|].
  apply (C8_wheel_one_channel_off 100); [lia | reflexivity].
Defined.

End WheelFacts.

(** ** The button and the gauge mode *)

Section ButtonFacts.

Lemma handle_button_no_edge pin s :
  pin = true \/ button_was_pressed s = true ->
  gaugeType (handle_button pin s) = gaugeType s /\
  button_was_pressed (handle_button pin s) = negb pin.
Proof.
  intros H. unfold handle_button.
  destruct pin, (button_was_pressed s); simpl; auto.
  destruct H; discriminate.
Qed.

Lemma handle_button_edge s :
  button_was_pressed s = false ->
  gaugeType (handle_button false s) =
    (if to_int (gaugeType s + 1) >? 8 then 1 else to_int (gaugeType s + 1)) /\
  button_was_pressed (handle_button false s) = true.
Proof.
  intros H. unfold handle_button. rewrite H. cbn [negb andb].
  cbn [set_button_was_pressed set_gaugeType gaugeType].
  destruct (to_int (gaugeType s + 1) >? 8); auto.
Qed.

Lemma handle_button_in_range pin s :
  1 <= gaugeType s <= 8 -> 1 <= gaugeType (handle_button pin s) <= 8.
Proof.
  intros Hg.
  destruct pin.
  - destruct (handle_button_no_edge true s) as [E _]; [auto|]. now rewrite E.
  - destruct (button_was_pressed s) eqn:Hw.
    + destruct (handle_button_no_edge false s) as [E _]; [auto|]. now rewrite E.
    + destruct (handle_button_edge s Hw) as [E _]. rewrite E.
      rewrite to_int_id by lia.
      destruct (Z.gtb_spec (gaugeType s + 1) 8); lia.
Qed.

Lemma handle_buttons_in_range pins : forall s,
  1 <= gaugeType s <= 8 -> 1 <= gaugeType (handle_buttons pins s) <= 8.
Proof.
  unfold handle_buttons.
  induction pins as [|pin pins IH]; intros s Hg; simpl; [assumption|].
  apply IH. now apply handle_button_in_range.
Qed.

(** While the button stays down and the previous sample was "pressed",
    nothing moves. *)
Lemma handle_buttons_held pins : forall s,
  button_was_pressed s = true -> Forall pressed pins ->
  gaugeType (handle_buttons pins s) = gaugeType s /\
  button_was_pressed (handle_buttons pins s) = true.
Proof.
  unfold handle_buttons.
  induction pins as [|pin pins IH]; intros s Hw Hall; simpl; [auto|].
  inversion Hall as [|? ? Hp Hrest]; subst. unfold pressed in Hp. subst pin.
  destruct (handle_button_no_edge false s) as [Eg Ew]; [auto|].
  destruct (IH (handle_button false s) Ew Hrest) as [Eg' Ew'].
  split; [congruence | assumption].
Qed.

End ButtonFacts.

(** ** What one pass of the loop is made of *)

Section LoopFacts.

(** Every pass either shows "No Data" and touches nothing else, or applies
    the configuration of the mode and calls the updater and the renderer
    on some reading; it ends with the button. *)
Lemma loop_cases (i : Inputs) (s : Sketch) :
  loop i s = Some (handle_button (digitalRead i) (draw NoData s)) \/
  exists v w p lbl,
    loop i s =
      s1 ← gauge (millis_display i) (millis_strip i) v w p lbl (mode_config (gaugeType s) s);
      Some (handle_button (digitalRead i) s1).
Proof.
  unfold loop, mode_config.
  split_mode (gaugeType s);
    repeat match goal with
           | |- context [if ?c then _ else _] => destruct c
           end;
    first [ left; reflexivity | right; do 4 eexists; reflexivity ].
Qed.

(** The display updater leaves the configuration, the strip, the renderer's
    variables and the mode alone. *)
Lemma OLED_update_frame now v w p lbl s :
  let s' := OLED_update now v w p lbl s in
  levels s' = levels s /\ strip s' = strip s /\ gaugeType s' = gaugeType s /\
  button_was_pressed s' = button_was_pressed s /\ prev_range s' = prev_range s /\
  prevBlinkTime s' = prevBlinkTime s /\ warningState s' = warningState s.
Proof.
  unfold OLED_update.
  destruct (F32.ne _ _); [|cbn; tauto].
  fields. destruct (_ >? _); fields; tauto.
Qed.

Lemma render_in_range_frame n s :
  let s' := render_in_range n s in
  levels s' = levels s /\ oled s' = oled s /\ gaugeType s' = gaugeType s /\
  button_was_pressed s' = button_was_pressed s /\
  lastDisplayValue s' = lastDisplayValue s /\ prevDispTime s' = prevDispTime s /\
  warningState s' = warningState s /\ prevBlinkTime s' = prevBlinkTime s.
Proof.
  unfold render_in_range. destruct (negb _); fields; tauto.
Qed.

Lemma render_alarm_frame t s :
  let s' := render_alarm t s in
  levels s' = levels s /\ oled s' = oled s /\ gaugeType s' = gaugeType s /\
  button_was_pressed s' = button_was_pressed s /\
  lastDisplayValue s' = lastDisplayValue s /\ prevDispTime s' = prevDispTime s.
Proof.
  unfold render_alarm. fields.
  destruct (_ >? _); fields; [|tauto].
  destruct (warningState s =? 0); fields; tauto.
Qed.

Lemma render_below_frame s :
  let s' := render_below s in
  levels s' = levels s /\ oled s' = oled s /\ gaugeType s' = gaugeType s /\
  button_was_pressed s' = button_was_pressed s /\
  lastDisplayValue s' = lastDisplayValue s /\ prevDispTime s' = prevDispTime s /\
  warningState s' = warningState s /\ prevBlinkTime s' = prevBlinkTime s.
Proof.
  unfold render_below. destruct (negb _); fields; tauto.
Qed.

(** The renderer leaves the configuration, the display and the mode
    alone. *)
Lemma ledStrip_update_frame now v s s' :
  ledStrip_update now v s = Some s' ->
  levels s' = levels s /\ oled s' = oled s /\ gaugeType s' = gaugeType s /\
  button_was_pressed s' = button_was_pressed s /\
  lastDisplayValue s' = lastDisplayValue s /\ prevDispTime s' = prevDispTime s.
Proof.
  unfold ledStrip_update.
  destruct (in_range_cond _ _).
  - destruct (numOfLEDs_of _ _) as [n|]; cbn; [|discriminate].
    intros [= <-]. pose proof (render_in_range_frame n s). cbv zeta in *. tauto.
  - destruct (alarm_cond _ _); intros [= <-].
    + pose proof (render_alarm_frame (to_ulong now) s). cbv zeta in *. tauto.
    + pose proof (render_below_frame s). cbv zeta in *. tauto.
Qed.

Lemma gauge_frame now_d now_s v w p lbl s s' :
  gauge now_d now_s v w p lbl s = Some s' ->
  levels s' = levels s /\ gaugeType s' = gaugeType s /\
  button_was_pressed s' = button_was_pressed s.
Proof.
  unfold gauge. intros H.
  apply ledStrip_update_frame in H.
  pose proof (OLED_update_frame now_d v w p lbl s) as F. cbv zeta in F.
  destruct H as (-> & _ & -> & -> & _). tauto.
Qed.

Lemma mode_config_frame g s :
  gaugeType (mode_config g s) = gaugeType s /\
  button_was_pressed (mode_config g s) = button_was_pressed s /\
  strip (mode_config g s) = strip s /\ oled (mode_config g s) = oled s.
Proof.
  unfold mode_config.
  split_mode g; cbn; tauto.
Qed.

(** The next mode only depends on the mode and on the previous sample. *)
Lemma handle_button_mode pin s1 s2 :
  gaugeType s1 = gaugeType s2 -> button_was_pressed s1 = button_was_pressed s2 ->
  gaugeType (handle_button pin s1) = gaugeType (handle_button pin s2) /\
  button_was_pressed (handle_button pin s1) = button_was_pressed (handle_button pin s2).
Proof.
  intros Hg Hw. unfold handle_button. rewrite Hw.
  destruct (negb pin && negb (button_was_pressed s2)); fields; [|auto].
  rewrite Hg. destruct (_ >? 8); fields; auto.
Qed.

(** Inside [loop], the mode is in the hands of [handle_button] alone. *)
Lemma loop_mode (i : Inputs) (s s' : Sketch) :
  loop i s = Some s' ->
  gaugeType s' = gaugeType (handle_button (digitalRead i) s) /\
  button_was_pressed s' = button_was_pressed (handle_button (digitalRead i) s).
Proof.
  intros H.
  destruct (loop_cases i s) as [E | (v & w & p & lbl & E)]; rewrite E in H.
  - injection H as <-. apply handle_button_mode; reflexivity.
  - destruct (gauge _ _ _ _ _ _ _) as [s1|] eqn:G; cbn in H; [|discriminate].
    injection H as <-.
    apply gauge_frame in G. destruct G as (_ & Gg & Gw).
    destruct (mode_config_frame (gaugeType s) s) as (Mg & Mw & _).
    apply handle_button_mode; congruence.
Qed.

End LoopFacts.

Section ModeController.

(** C10. The gauge mode changes only on a rising button edge (a sample
    that reads pressed right after one that read unpressed); the flag of
    the previous sample starts at "pressed", so a button held down from
    startup changes nothing; on an edge the mode advances by one, from 8
    back to 1, and it stays within 1..8.  Inside [loop] nothing but
    [handle_button] moves the mode. *)
Theorem C10_mode_changes_on_rising_edge (pin : bool) (pins : list bool) (s : Sketch) :
  1 <= gaugeType s <= 8 ->
  (gaugeType (handle_button pin s) <> gaugeType s ->
     pressed pin /\ button_was_pressed s = false) /\
  (pressed pin -> button_was_pressed s = false ->
     gaugeType (handle_button pin s) = next_mode (gaugeType s)) /\
  button_was_pressed (handle_button pin s) = negb pin /\
  1 <= gaugeType (handle_button pin s) <= 8 /\
  button_was_pressed initial = true /\
  (Forall pressed pins -> gaugeType (handle_buttons pins initial) = gaugeType initial) /\
  1 <= gaugeType (handle_buttons pins initial) <= 8 /\
  (forall i s', loop i s = Some s' ->
     gaugeType s' = gaugeType (handle_button (digitalRead i) s)).
Proof.
  intros Hg. repeat apply conj.
  - intros Hne. unfold pressed.
    destruct pin; [|destruct (button_was_pressed s) eqn:Hw]; auto;
      exfalso; apply Hne; apply handle_button_no_edge; auto.
  - unfold pressed. intros -> Hw.
    destruct (handle_button_edge s Hw) as [E _]. rewrite E.
    rewrite to_int_id by lia. unfold next_mode.
    destruct (Z.gtb_spec (gaugeType s + 1) 8), (Z.eqb_spec (gaugeType s) 8); lia.
  - unfold handle_button.
    destruct (negb pin && negb (button_was_pressed s)); fields; [|reflexivity].
    destruct (_ >? 8); reflexivity.
  - apply handle_button_in_range; lia.
  - apply handle_button_in_range; lia.
  - reflexivity.
  - intros Hall. now apply handle_buttons_held.
  - apply handle_buttons_in_range. cbn. lia.
  - apply handle_buttons_in_range. cbn. lia.
  - intros i s' H. now apply loop_mode in H.
Qed.

Lemma C10_mode_witness :
  let s := set_gaugeType 8 (set_button_was_pressed false initial) in
  1 <= gaugeType s <= 8 /\ gaugeType (handle_button false s) = 1.
Proof.
  intros s. split; [cbn; lia|].
  pose proof (C10_mode_changes_on_rising_edge false [false; false] s) as H.
  destruct H as (_ & H & _); [cbn; lia|].
  now rewrite H.
Defined.

End ModeController.

(** ** The alarm regime *)

Section AlarmFacts.

Lemma toggled_changes w : toggled w <> w.
Proof. unfold toggled. destruct (Z.eqb_spec w 0); lia. Qed.

(** Within the interval the alarm branch only records its marker. *)
Lemma render_alarm_wait now s :
  elapsed_since (prevBlinkTime s) now <= blinkInterval ->
  render_alarm (to_ulong now) s = set_prev_range 8 s.
Proof.
  intros H. unfold render_alarm. fields.
  rewrite timer_elapsed. change (to_ulong blinkInterval) with blinkInterval.
  destruct (Z.gtb_spec (elapsed_since (prevBlinkTime s) now) blinkInterval); [lia|].
  reflexivity.
Qed.

(** Past the interval it flips the bit, rearms the timer and commits. *)
Lemma render_alarm_toggle now s :
  blinkInterval < elapsed_since (prevBlinkTime s) now ->
  let s' := render_alarm (to_ulong now) s in
  warningState s' = toggled (warningState s) /\
  prevBlinkTime s' = to_long (to_ulong now) /\
  (exists past, calls (strip s') = CallShow :: past) /\
  prev_range s' = 8.
Proof.
  intros H. unfold render_alarm. fields.
  rewrite timer_elapsed. change (to_ulong blinkInterval) with blinkInterval.
  destruct (Z.gtb_spec (elapsed_since (prevBlinkTime s) now) blinkInterval); [|lia].
  unfold toggled. destruct (warningState s =? 0); fields; cbn [show calls];
    repeat split; eauto.
Qed.

Lemma alarm_call now v s :
  in_range_cond (levels s) v = false -> alarm_cond (levels s) v = true ->
  ledStrip_update now v s = Some (render_alarm (to_ulong now) s).
Proof. intros Hi Ha. unfold ledStrip_update. now rewrite Hi, Ha. Qed.

(** An alarm call [d] milliseconds after one that toggled. *)
Lemma alarm_call_after_toggle now d v s :
  in_range_cond (levels s) v = false -> alarm_cond (levels s) v = true ->
  0 <= d < 2 ^ 32 ->
  prevBlinkTime s = to_long (to_ulong now) ->
  exists s', ledStrip_update (now + d) v s = Some s' /\
    (d <= blinkInterval ->
       warningState s' = warningState s /\ strip s' = strip s /\
       prevBlinkTime s' = prevBlinkTime s) /\
    (blinkInterval < d -> warningState s' = toggled (warningState s)).
Proof.
  intros Hi Ha Hd Hp.
  rewrite (alarm_call _ _ _ Hi Ha). eexists. split; [reflexivity|].
  assert (E : elapsed_since (prevBlinkTime s) (now + d) = d)
    by (rewrite Hp; now apply elapsed_after_rearm).
  split; intros Hcmp.
  - rewrite render_alarm_wait by lia. fields. auto.
  - apply render_alarm_toggle. lia.
Qed.

Lemma blink_patterns st c :
  ring st ->
  pixels (for_up 1 (numPixels st) 2 (fun i st => setPixelColor i 0 st)
            (for_up 0 (numPixels st) 2 (fun i st => setPixelColor i c st) st))
    = alternating c 0 /\
  pixels (for_up 0 (numPixels st) 2 (fun i st => setPixelColor i 0 st)
            (for_up 1 (numPixels st) 2 (fun i st => setPixelColor i c st) st))
    = alternating 0 c.
Proof.
  unfold ring. destruct st as [px la ca]. cbn [pixels].
  change (Z.to_nat NUMNEOPIXELS) with 16%nat. intros Hlen.
  do 16 (destruct px as [|? px]; [discriminate|]).
  destruct px; [|discriminate].
  split; reflexivity.
Qed.

Lemma show_effect st : pixels (show st) = pixels st /\ latched (show st) = pixels st.
Proof. split; reflexivity. Qed.

(** The strip after an alarm call: the blink pattern when the call
    toggles, untouched when it does not. *)
Lemma render_alarm_strip now s :
  (blinkInterval < elapsed_since (prevBlinkTime s) now -> ring (strip s) ->
     pixels (strip (render_alarm (to_ulong now) s))
     = (if warningState s =? 0
        then alternating (color_2 (levels s)) 0
        else alternating 0 (color_2 (levels s))) /\
     latched (strip (render_alarm (to_ulong now) s))
     = pixels (strip (render_alarm (to_ulong now) s))) /\
  (elapsed_since (prevBlinkTime s) now <= blinkInterval ->
     strip (render_alarm (to_ulong now) s) = strip s).
Proof.
  split.
  - intros Hel Hring. unfold render_alarm. fields.
    rewrite timer_elapsed. change (to_ulong blinkInterval) with blinkInterval.
    destruct (Z.gtb_spec (elapsed_since (prevBlinkTime s) now) blinkInterval); [|lia].
    destruct (blink_patterns (strip s) (color_2 (levels s)) Hring) as [Ee Eo].
    destruct (warningState s =? 0); fields;
      match goal with
      | |- pixels (show ?st) = _ /\ _ => destruct (show_effect st) as [-> ->]
      end; split; try reflexivity; assumption.
  - intros Hel. now rewrite render_alarm_wait.
Qed.

End AlarmFacts.

Section RendererRegimes.

(** C6 (amended). In the alarm regime the blink bit toggles exactly when
    more than the 150 ms interval has elapsed on the millisecond clock
    since the last toggle, so never before 150 ms.  Of two alarm calls
    50 ms apart, the second does not toggle when the first one toggled; in
    general it toggles exactly when, at the first call, more than 100 ms and
    at most 150 ms had elapsed since the last toggle, the interval then
    running out between the two calls.  Of two alarm calls 200 ms apart,
    the second toggles exactly once. *)
Theorem C6_blink_timing (now : Z) (v v2 : spec_float) (s : Sketch) :
  in_range_cond (levels s) v = false -> alarm_cond (levels s) v = true ->
  in_range_cond (levels s) v2 = false -> alarm_cond (levels s) v2 = true ->
  exists s1, ledStrip_update now v s = Some s1 /\
    (warningState s1 <> warningState s <->
       blinkInterval < elapsed_since (prevBlinkTime s) now) /\
    (warningState s1 <> warningState s ->
       150 <= elapsed_since (prevBlinkTime s) now /\
       warningState s1 = toggled (warningState s) /\
       exists s2, ledStrip_update (now + 50) v2 s1 = Some s2 /\
                  warningState s2 = warningState s1 /\ strip s2 = strip s1) /\
    (exists s2, ledStrip_update (now + 50) v2 s1 = Some s2 /\
                (warningState s2 <> warningState s1 <->
                   100 < elapsed_since (prevBlinkTime s) now <= 150) /\
                (warningState s2 <> warningState s1 ->
                   warningState s2 = toggled (warningState s1))) /\
    (exists s2, ledStrip_update (now + 200) v2 s1 = Some s2 /\
                warningState s2 = toggled (warningState s1)).
Proof.
  intros Hi Ha Hi2 Ha2.
  rewrite (alarm_call _ _ _ Hi Ha). eexists. split; [reflexivity|].
  set (s1 := render_alarm (to_ulong now) s).
  assert (Hiff : warningState s1 <> warningState s <->
                 blinkInterval < elapsed_since (prevBlinkTime s) now).
  { split.
    - intros Hne.
      destruct (Z.lt_ge_cases blinkInterval (elapsed_since (prevBlinkTime s) now))
        as [Hlt | Hge]; [assumption|].
      exfalso. apply Hne. subst s1. now rewrite render_alarm_wait by lia.
    - intros Hlt. destruct (render_alarm_toggle now s Hlt) as (E & _).
      fold s1 in E. rewrite E. apply toggled_changes. }
  destruct (render_alarm_frame (to_ulong now) s) as (El & _). fold s1 in El.
  rewrite <- El in Hi2, Ha2.
  pose proof (to_ulong_range (now - prevBlinkTime s)) as Hr.
  fold (elapsed_since (prevBlinkTime s) now) in Hr.
  split; [exact Hiff|]. split; [|split].
  - intros Hne. apply Hiff in Hne.
    destruct (render_alarm_toggle now s Hne) as (Ew & Ep & _ & _). fold s1 in Ew, Ep.
    split; [unfold blinkInterval in Hne; lia|]. split; [exact Ew|].
    destruct (alarm_call_after_toggle now 50 v2 s1 Hi2 Ha2 ltac:(lia) Ep)
      as (s2 & E2 & Hwait & _).
    exists s2. split; [exact E2|]. destruct Hwait as (? & ? & _); auto.
    unfold blinkInterval. lia.
  - destruct (Z.lt_ge_cases blinkInterval (elapsed_since (prevBlinkTime s) now))
      as [Hlt | Hge].
    + destruct (render_alarm_toggle now s Hlt) as (_ & Ep & _ & _). fold s1 in Ep.
      destruct (alarm_call_after_toggle now 50 v2 s1 Hi2 Ha2 ltac:(lia) Ep)
        as (s2 & E2 & Hwait & _).
      destruct Hwait as (Ew2 & _); [unfold blinkInterval; lia|].
      exists s2. split; [exact E2|].
      unfold blinkInterval in Hlt.
      split; [split; [congruence | lia] | congruence].
    + assert (Ep : prevBlinkTime s1 = prevBlinkTime s)
        by (subst s1; now rewrite render_alarm_wait by lia).
      assert (Ee : elapsed_since (prevBlinkTime s1) (now + 50)
                   = elapsed_since (prevBlinkTime s) now + 50).
      { rewrite Ep. unfold blinkInterval in Hge. apply elapsed_later; lia. }
      rewrite (alarm_call _ _ _ Hi2 Ha2). eexists. split; [reflexivity|].
      unfold blinkInterval in Hge.
      destruct (Z.lt_ge_cases 100 (elapsed_since (prevBlinkTime s) now)) as [H100 | H100].
      * destruct (render_alarm_toggle (now + 50) s1) as (Ew2 & _);
          [rewrite Ee; unfold blinkInterval; lia|].
        split; [|intros _; exact Ew2].
        split; [intros _; lia|]. intros _. rewrite Ew2. apply toggled_changes.
      * rewrite render_alarm_wait by (rewrite Ee; unfold blinkInterval; lia).
        fields. split; [split; [congruence | lia] | congruence].
  - destruct (Z.lt_ge_cases blinkInterval (elapsed_since (prevBlinkTime s) now))
      as [Hlt | Hge].
    + destruct (render_alarm_toggle now s Hlt) as (_ & Ep & _ & _). fold s1 in Ep.
      destruct (alarm_call_after_toggle now 200 v2 s1 Hi2 Ha2 ltac:(lia) Ep)
        as (s2 & E2 & _ & Htog).
      exists s2. split; [exact E2|]. apply Htog. unfold blinkInterval. lia.
    + rewrite (alarm_call _ _ _ Hi2 Ha2). eexists. split; [reflexivity|].
      apply render_alarm_toggle.
      assert (Ep : prevBlinkTime s1 = prevBlinkTime s)
        by (subst s1; now rewrite render_alarm_wait by lia).
      rewrite Ep. unfold blinkInterval in *.
      rewrite elapsed_later by lia.
      lia.
Qed.

(** Last toggle at 1000, then alarm calls at 1120 and 1170, 50 ms apart:
    the first finds 120 ms elapsed and waits, the second finds 170 ms and
    toggles. *)
Lemma C6_second_call_toggles :
  let alarm_call_at := fun t s => ledStrip_update t (F32.of_Z 6500) s in
  let blink := fun s => (warningState s, prevBlinkTime s) in
  blink <$> alarm_call_at 1000 tachometer = Some (1, 1000) /\
  blink <$> (s0 ← alarm_call_at 1000 tachometer; alarm_call_at 1120 s0)
    = Some (1, 1000) /\
  blink <$> (s0 ← alarm_call_at 1000 tachometer;
             s1 ← alarm_call_at 1120 s0;
             alarm_call_at (1120 + 50) s1)
    = Some (0, 1170).
Proof.
  repeat split; vm_compute; reflexivity.
Qed.

(** C7. A reading exactly equal to the high threshold (and not below the
    low one) takes the alarm branch when the alarm is enabled and the
    in-range branch when it is disabled. *)
Theorem C7_high_threshold_tie_break (now : Z) (v : spec_float) (s : Sketch) :
  SFeqb v (F32.of_Z (stagePT_1 (levels s))) = true ->
  F32.ge v (F32.of_Z (stagePT_0 (levels s))) = true ->
  in_range_cond (levels s) v = negb (alarmOutsideRange (levels s)) /\
  ledStrip_update now v s =
    if alarmOutsideRange (levels s)
    then Some (render_alarm (to_ulong now) s)
    else (numOfLEDs ← numOfLEDs_of (levels s) v; Some (render_in_range numOfLEDs s)).
Proof.
  intros Heq Hlow.
  destruct (float_eq_ge_not_lt _ _ Heq) as [Hge Hlt].
  assert (Hin : in_range_cond (levels s) v = negb (alarmOutsideRange (levels s))).
  { unfold in_range_cond. rewrite Hlow, Hlt. reflexivity. }
  split; [exact Hin|].
  unfold ledStrip_update. rewrite Hin.
  unfold alarm_cond. rewrite Hge.
  destruct (alarmOutsideRange (levels s)); reflexivity.
Qed.

Lemma C6_blink_witness :
  let s := tachometer in
  in_range_cond (levels s) (F32.of_Z 6500) = false /\
  alarm_cond (levels s) (F32.of_Z 6500) = true /\
  exists s1, ledStrip_update 1000 (F32.of_Z 6500) s = Some s1 /\
    warningState s1 = 1 /\
    (exists s2, ledStrip_update (1000 + 50) (F32.of_Z 6300) s1 = Some s2 /\
                warningState s2 = 1) /\
    (exists s2, ledStrip_update (1000 + 200) (F32.of_Z 6300) s1 = Some s2 /\
                warningState s2 = 0).
Proof.
  intros s.
  assert (Hi : in_range_cond (levels s) (F32.of_Z 6500) = false) by (vm_compute; reflexivity).
  assert (Ha : alarm_cond (levels s) (F32.of_Z 6500) = true) by (vm_compute; reflexivity).
  assert (Hi2 : in_range_cond (levels s) (F32.of_Z 6300) = false) by (vm_compute; reflexivity).
  assert (Ha2 : alarm_cond (levels s) (F32.of_Z 6300) = true) by (vm_compute; reflexivity).
  split; [exact Hi|]. split; [exact Ha|].
  destruct (C6_blink_timing 1000 _ _ s Hi Ha Hi2 Ha2) as (s1 & E1 & Hiff & Hnext).
  assert (Ht : warningState s1 <> warningState s)
    by (apply Hiff; vm_compute; reflexivity).
  destruct Hnext as (Hnext & _ & (s3 & E3 & Ew3)).
  destruct (Hnext Ht) as (_ & Ew & (s2 & E2 & Ew2 & _)).
  assert (Ew1 : warningState s1 = 1) by (rewrite Ew; reflexivity).
  exists s1. split; [exact E1|]. split; [exact Ew1|]. split.
  - exists s2. split; [exact E2|]. congruence.
  - exists s3. split; [exact E3|]. rewrite Ew3, Ew1. reflexivity.
Defined.

Lemma C7_tie_break_witness :
  let s := tachometer in
  let v := F32.of_Z 6200 in
  SFeqb v (F32.of_Z (stagePT_1 (levels s))) = true /\
  F32.ge v (F32.of_Z (stagePT_0 (levels s))) = true /\
  ledStrip_update 1000 v s = Some (render_alarm (to_ulong 1000) s) /\
  ledStrip_update 1000 (F32.of_Z 50) (mode_config 3 initial)
    = Some (render_in_range (-1) (mode_config 3 initial)).
Proof.
  intros s v.
  assert (H1 : SFeqb v (F32.of_Z (stagePT_1 (levels s))) = true) by (vm_compute; reflexivity).
  assert (H2 : F32.ge v (F32.of_Z (stagePT_0 (levels s))) = true) by (vm_compute; reflexivity).
  split; [exact H1|]. split; [exact H2|]. split.
  - destruct (C7_high_threshold_tie_break 1000 v s H1 H2) as [_ E]. exact E.
  - assert (H3 : SFeqb (F32.of_Z 50)
                    (F32.of_Z (stagePT_1 (levels (mode_config 3 initial)))) = true)
      by (vm_compute; reflexivity).
    assert (H4 : F32.ge (F32.of_Z 50)
                   (F32.of_Z (stagePT_0 (levels (mode_config 3 initial)))) = true)
      by (vm_compute; reflexivity).
    destruct (C7_high_threshold_tie_break 1000 _ _ H3 H4) as [_ E].
    rewrite E. vm_compute. reflexivity.
Defined.

End RendererRegimes.

(** ** The in-range regime *)

Section InRangeFacts.

Lemma clearLEDs_pixels st :
  ring st ->
  pixels (clearLEDs st) = replicate 16 0 /\ latched (clearLEDs st) = replicate 16 0.
Proof.
  unfold ring. destruct st as [px la ca]. cbn [pixels].
  change (Z.to_nat NUMNEOPIXELS) with 16%nat. intros Hlen.
  do 16 (destruct px as [|? px]; [discriminate|]).
  destruct px; [|discriminate].
  split; reflexivity.
Qed.

(** The three tests of the drawing loop leave no position without a
    colour. *)
Lemma paint_eq l ledNum st :
  paint l ledNum st = setPixelColor ledNum (stage_color l ledNum) st.
Proof.
  unfold paint, stage_color.
  rewrite !Z.geb_leb.
  destruct (Z.leb_spec (ledStages_1 l) ledNum) as [H1 | H1]; [reflexivity|].
  destruct (Z.ltb_spec ledNum (ledStages_1 l)) as [_ | H1']; [|lia].
  destruct (Z.leb_spec (ledStages_2 l) ledNum) as [H2 | H2]; [reflexivity|].
  cbn [andb].
  destruct (Z.ltb_spec ledNum (ledStages_2 l)) as [_ | H2']; [reflexivity | lia].
Qed.

Lemma stage_color_visible l ledNum : visible_colors l -> stage_color l ledNum <> 0.
Proof.
  intros (H0 & H1 & H2). unfold stage_color.
  destruct (_ >=? _); [assumption|]. destruct (_ >=? _); assumption.
Qed.

Lemma setPixelColor_pixels_in n c st :
  0 <= n < NUMNEOPIXELS ->
  pixels (setPixelColor n c st) = <[Z.to_nat n := c]> (pixels st).
Proof.
  intros Hn. unfold setPixelColor, numPixels, to_uint16. cbn [pixels].
  unfold NUMNEOPIXELS in *.
  rewrite Z.mod_small by lia.
  destruct (Z.ltb_spec n 16); [reflexivity | lia].
Qed.

(** Going down from [i] to [stop], the loop turns the pixels [stop..i]
    on and leaves those below [stop] off. *)
Lemma count_down_paint l stop :
  -1 <= stop ->
  forall (rounds : nat) (i : Z) (st : Adafruit_NeoPixel) (above : list Z),
    i < NUMNEOPIXELS ->
    Z.of_nat rounds = i - stop + 1 ->
    visible_colors l ->
    pixels st = replicate (Z.to_nat (i + 1)) 0 ++ above ->
    Forall (fun c => c <> 0) above ->
    exists above',
      pixels (count_down rounds i stop (paint l) st)
        = replicate (Z.to_nat stop) 0 ++ above' /\
      Forall (fun c => c <> 0) above'.
Proof.
  intros Hstop rounds.
  induction rounds as [|rounds IH]; intros i st above Hi Hr Hv Hpx Hab.
  - exists above. cbn [count_down]. split; [|assumption].
    rewrite Hpx. do 2 f_equal. lia.
  - cbn [count_down].
    destruct (Z.geb_spec i stop) as [Hge | Hlt]; [|lia].
    rewrite paint_eq.
    destruct (Z.eq_dec i (-1)) as [-> | Hne].
    + apply (IH (-1 - 1) _ above); try assumption; try lia.
    + apply (IH (i - 1) _ (stage_color l i :: above)); try assumption; try lia.
      * rewrite setPixelColor_pixels_in by lia. rewrite Hpx.
        replace (Z.to_nat (i + 1)) with (S (Z.to_nat i)) by lia.
        rewrite replicate_S_end, <- app_assoc. cbn [app].
        rewrite insert_app_r_alt by (rewrite length_replicate; lia).
        rewrite length_replicate, Nat.sub_diag. cbn.
        do 2 f_equal. lia.
      * constructor; [now apply stage_color_visible | assumption].
Qed.

Lemma setPixelColor_length n c st :
  length (pixels (setPixelColor n c st)) = length (pixels st).
Proof.
  unfold setPixelColor. cbn [pixels].
  destruct (_ <? _); [apply length_insert | reflexivity].
Qed.

Lemma count_down_paint_length l stop (rounds : nat) : forall i st,
  length (pixels (count_down rounds i stop (paint l) st)) = length (pixels st).
Proof.
  induction rounds as [|rounds IH]; intros i st; cbn [count_down]; [reflexivity|].
  destruct (i >=? stop); [|reflexivity].
  rewrite IH, paint_eq. apply setPixelColor_length.
Qed.

Lemma lit_pixels_split k above px :
  px = replicate k 0 ++ above -> Forall (fun c => c <> 0) above ->
  length px = 16%nat ->
  Z.of_nat (length (filter (fun c => c <> 0) px)) = 16 - Z.of_nat k.
Proof.
  intros -> Hab Hlen.
  rewrite filter_app.
  assert (E1 : filter (fun c => c <> 0) (replicate k 0) = []).
  { clear. induction k as [|k IH]; [reflexivity|].
    cbn [replicate]. rewrite filter_cons_False by tauto. exact IH. }
  assert (E2 : filter (fun c => c <> 0) above = above).
  { clear -Hab. induction Hab as [|c above Hc _ IH]; [reflexivity|].
    rewrite filter_cons_True by assumption. now rewrite IH. }
  rewrite E1, E2. cbn [app].
  rewrite length_app, length_replicate in Hlen. lia.
Qed.

(** What [constrain] and the narrowing to [int] leave. *)
Lemma displayValueConstrained_range l v c :
  displayValueConstrained_of l v = Some c ->
  0 <= c <= NUMNEOPIXELS /\
  numOfLEDs_of l v = Some (NUMNEOPIXELS - 1 - c).
Proof.
  unfold numOfLEDs_of. intros H. rewrite H. cbn [mbind option_bind].
  unfold displayValueConstrained_of in H.
  destruct (F32.truncate v) as [x|]; cbn [mbind option_bind] in H; [|discriminate].
  destruct (map _ _ _ _ _) as [m|]; cbn [mbind option_bind] in H; [|discriminate].
  injection H as <-.
  assert (Hc : 0 <= constrain (to_int m) 0 NUMNEOPIXELS <= NUMNEOPIXELS).
  { unfold constrain, NUMNEOPIXELS.
    destruct (Z.ltb_spec (to_int m) 0); [lia|].
    destruct (Z.gtb_spec (to_int m) 16); lia. }
  unfold NUMNEOPIXELS in *.
  rewrite (to_int_id (constrain _ _ _)) by lia.
  split; [lia|]. rewrite to_int_id by lia. reflexivity.
Qed.

(** Between the thresholds [map] is the linear map, rounded down. *)
Lemma map_linear x low high :
  - 2 ^ 15 <= low < high -> high < 2 ^ 15 -> low <= x < high ->
  map x low high 0 NUMNEOPIXELS = Some ((x - low) * NUMNEOPIXELS / (high - low)) /\
  0 <= (x - low) * NUMNEOPIXELS / (high - low) < NUMNEOPIXELS.
Proof.
  intros Hl Hh Hx. unfold map, NUMNEOPIXELS.
  assert (Hq : 0 <= (x - low) * 16 / (high - low) < 16).
  { split; [apply Z.div_pos; lia|]. apply Z.div_lt_upper_bound; lia. }
  rewrite (to_long_id (high - low)) by lia.
  destruct (Z.eqb_spec (high - low) 0); [lia|].
  cbv zeta.
  rewrite (to_long_id (x - low)) by lia.
  rewrite (to_long_id (16 - 0)) by lia.
  replace (16 - 0) with 16 by lia.
  rewrite (to_long_id ((x - low) * 16)) by lia.
  rewrite Z.quot_div_nonneg by lia.
  rewrite (to_long_id ((x - low) * 16 / (high - low))) by lia.
  rewrite to_long_id by lia.
  split; [do 2 f_equal; lia | assumption].
Qed.

(** A redraw of the first branch lights the pixels from [numOfLEDs] up,
    all of them when [numOfLEDs] is -1, and commits. *)
Lemma render_in_range_redraw n s :
  ring (strip s) -> visible_colors (levels s) ->
  -1 <= n <= NUMNEOPIXELS - 1 -> prev_range s <> n ->
  let s' := render_in_range n s in
  prev_range s' = n /\
  Z.of_nat (lit_pixels (strip s')) = NUMNEOPIXELS - Z.max n 0 /\
  latched (strip s') = pixels (strip s') /\
  exists past, calls (strip s') = CallShow :: past.
Proof.
  intros Hring Hvis Hn Hne. unfold render_in_range.
  destruct (Z.eqb_spec (prev_range s) n) as [|_]; [contradiction|].
  cbn [negb]. fields. unfold lit_pixels. cbn [show pixels latched calls].
  split; [reflexivity|]. split; [|split; [reflexivity | eauto]].
  change (to_int (numPixels (clearLEDs (strip s)) - 1)) with 15.
  destruct (clearLEDs_pixels _ Hring) as [Hpx _].
  unfold for_down, NUMNEOPIXELS in *.
  assert (Hstart : pixels (clearLEDs (strip s)) = replicate (Z.to_nat (15 + 1)) 0 ++ [])
    by (rewrite Hpx; now rewrite app_nil_r).
  destruct (count_down_paint (levels s) n ltac:(lia)
              (Z.to_nat (15 - n + 1)) 15 (clearLEDs (strip s)) []
              ltac:(unfold NUMNEOPIXELS; lia) ltac:(lia) Hvis Hstart
              (Forall_nil_2 _))
    as (above & Ha & Hab).
  rewrite (lit_pixels_split (Z.to_nat n) above _ Ha Hab).
  - lia.
  - rewrite count_down_paint_length, Hpx. apply length_replicate.
Qed.

Lemma render_in_range_idle n s : prev_range s = n -> render_in_range n s = s.
Proof.
  intros H. unfold render_in_range.
  destruct (Z.eqb_spec (prev_range s) n); [reflexivity | contradiction].
Qed.

Lemma render_in_range_prev n s : prev_range (render_in_range n s) = n.
Proof.
  unfold render_in_range.
  destruct (Z.eqb_spec (prev_range s) n); cbn [negb]; fields; auto.
Qed.

Lemma in_range_call now v n s :
  in_range_cond (levels s) v = true -> numOfLEDs_of (levels s) v = Some n ->
  ledStrip_update now v s = Some (render_in_range n s).
Proof. intros Hi Hn. unfold ledStrip_update. now rewrite Hi, Hn. Qed.

End InRangeFacts.

Section RendererWrites.

Lemma numOfLEDs_range l v n :
  numOfLEDs_of l v = Some n ->
  -1 <= n <= NUMNEOPIXELS - 1 /\
  displayValueConstrained_of l v = Some (NUMNEOPIXELS - 1 - n).
Proof.
  intros H.
  destruct (displayValueConstrained_of l v) as [c|] eqn:Hc.
  - destruct (displayValueConstrained_range l v c Hc) as [Hr E].
    rewrite E in H. injection H as <-.
    split; [lia|]. f_equal. lia.
  - unfold numOfLEDs_of in H. rewrite Hc in H. discriminate.
Qed.

(** At the low threshold the mapped value is 0. *)
Lemma displayValueConstrained_at_low l v c :
  F32.truncate v = Some (stagePT_0 l) ->
  displayValueConstrained_of l v = Some c -> c = 0.
Proof.
  unfold displayValueConstrained_of, map. intros ->. cbn [mbind option_bind].
  destruct (_ =? 0); cbn [mbind option_bind]; [discriminate|].
  rewrite Z.sub_diag. intros [= <-]. reflexivity.
Qed.

(** Between the thresholds it is the linear map, rounded down. *)
Lemma displayValueConstrained_linear l v x c :
  F32.truncate v = Some x ->
  - 2 ^ 15 <= stagePT_0 l < stagePT_1 l -> stagePT_1 l < 2 ^ 15 ->
  stagePT_0 l <= x < stagePT_1 l ->
  displayValueConstrained_of l v = Some c ->
  c = (x - stagePT_0 l) * NUMNEOPIXELS / (stagePT_1 l - stagePT_0 l).
Proof.
  intros Hx Hl Hh Hin. unfold displayValueConstrained_of.
  rewrite Hx. cbn [mbind option_bind].
  destruct (map_linear x _ _ Hl Hh Hin) as [-> Hq]. cbn [mbind option_bind].
  unfold NUMNEOPIXELS in *.
  set (q := (x - stagePT_0 l) * 16 / (stagePT_1 l - stagePT_0 l)) in *.
  rewrite (to_int_id q) by lia.
  unfold constrain.
  destruct (Z.ltb_spec q 0); [lia|]. destruct (Z.gtb_spec q 16); [lia|].
  rewrite to_int_id by lia. now intros [= <-].
Qed.

(** C3 (amended). An in-range call whose index [numOfLEDs] differs from the
    one of the previous call redraws the strip with [min (c + 1, 16)] lit
    pixels, where [c] is the reading mapped by [map] from [low, high) to
    [0, 16), narrowed to [int] and constrained to [0, 16]: one more than
    the mapped value, so a reading at the low threshold lights one pixel
    and every in-range reading lights between 1 and 16.  Between the
    thresholds [c] is the linear map rounded down.  A call with the same
    index as the previous one leaves everything as it is. *)
Theorem C3_lit_pixels_in_range (now : Z) (v : spec_float) (c : Z) (s : Sketch) :
  ring (strip s) -> visible_colors (levels s) ->
  in_range_cond (levels s) v = true ->
  displayValueConstrained_of (levels s) v = Some c ->
  exists s', ledStrip_update now v s = Some s' /\
    0 <= c <= NUMNEOPIXELS /\
    (prev_range s <> NUMNEOPIXELS - 1 - c ->
       Z.of_nat (lit_pixels (strip s')) = Z.min (c + 1) NUMNEOPIXELS /\
       1 <= Z.of_nat (lit_pixels (strip s')) <= NUMNEOPIXELS /\
       latched (strip s') = pixels (strip s')) /\
    (prev_range s = NUMNEOPIXELS - 1 - c -> s' = s) /\
    (F32.truncate v = Some (stagePT_0 (levels s)) -> c = 0) /\
    (forall x, F32.truncate v = Some x ->
       - 2 ^ 15 <= stagePT_0 (levels s) < stagePT_1 (levels s) ->
       stagePT_1 (levels s) < 2 ^ 15 ->
       stagePT_0 (levels s) <= x < stagePT_1 (levels s) ->
       c = (x - stagePT_0 (levels s)) * NUMNEOPIXELS
             / (stagePT_1 (levels s) - stagePT_0 (levels s))).
Proof.
  intros Hring Hvis Hin Hc.
  destruct (displayValueConstrained_range _ _ _ Hc) as [Hr Hn].
  rewrite (in_range_call now v _ s Hin Hn). eexists. split; [reflexivity|].
  split; [exact Hr|]. repeat apply conj.
  - intros Hne.
    destruct (render_in_range_redraw (NUMNEOPIXELS - 1 - c) s Hring Hvis
                ltac:(lia) Hne) as (_ & Hlit & Hlatch & _).
    rewrite Hlit. unfold NUMNEOPIXELS in *. repeat split; try lia. exact Hlatch.
  - apply render_in_range_idle.
  - intros Hlow. exact (displayValueConstrained_at_low _ _ _ Hlow Hc).
  - intros x Hx Hl Hh Hxin. exact (displayValueConstrained_linear _ _ _ _ Hx Hl Hh Hxin Hc).
Qed.

Lemma tachometer_ready : ring (strip tachometer) /\ visible_colors (levels tachometer).
Proof.
  split; [reflexivity|].
  unfold visible_colors, tachometer. cbn. repeat split; apply Wheel_visible.
Qed.

Lemma C3_lit_pixels_witness :
  in_range_cond (levels tachometer) (F32.of_Z 5000) = true /\
  displayValueConstrained_of (levels tachometer) (F32.of_Z 5000) = Some 6 /\
  exists s', ledStrip_update 0 (F32.of_Z 5000) tachometer = Some s' /\
             Z.of_nat (lit_pixels (strip s')) = 7.
Proof.
  assert (Hin : in_range_cond (levels tachometer) (F32.of_Z 5000) = true)
    by (vm_compute; reflexivity).
  assert (Hc : displayValueConstrained_of (levels tachometer) (F32.of_Z 5000) = Some 6)
    by (vm_compute; reflexivity).
  split; [exact Hin|]. split; [exact Hc|].
  destruct tachometer_ready as [Hring Hvis].
  destruct (C3_lit_pixels_in_range 0 _ _ _ Hring Hvis Hin Hc)
    as (s' & E & _ & Hlit & _).
  exists s'. split; [exact E|].
  destruct Hlit as (Hlit & _); [vm_compute; discriminate|].
  rewrite Hlit. reflexivity.
Defined.

(** At the low threshold of the tachometer the mapped value is 0, and the
    redraw lights the top pixel: one lit pixel, not none. *)
Lemma C3_low_threshold_lights_one :
  in_range_cond (levels tachometer) (F32.of_Z 4200) = true /\
  displayValueConstrained_of (levels tachometer) (F32.of_Z 4200) = Some 0 /\
  exists s', ledStrip_update 0 (F32.of_Z 4200) tachometer = Some s' /\
             pixels (strip s') = replicate 15 0 ++ [Wheel 255] /\
             lit_pixels (strip s') = 1%nat /\
             Z.of_nat (lit_pixels (strip s')) <> 0.
Proof.
  split; [vm_compute; reflexivity|]. split; [vm_compute; reflexivity|].
  exists (render_in_range 15 tachometer).
  split; [vm_compute; reflexivity|].
  split; [vm_compute; reflexivity|].
  split; [vm_compute; reflexivity|].
  vm_compute. discriminate.
Qed.

(** C5. Two consecutive in-range calls whose readings map to the same
    lit-count: the second one changes nothing, so it issues no write and no
    commit.  Two consecutive below-range calls: the first clears the strip
    unless the marker 100 says it is cleared already, and the second
    changes nothing.  What the loop does between two renderer calls (the
    button, the configuration, the display) leaves [prev_range] alone; the
    second call is therefore taken in any state [s2] that has the
    [prev_range] the first call left. *)
Theorem C5_write_debounce (now1 now2 : Z) (v1 v2 : spec_float) (s : Sketch) :
  (forall c,
     in_range_cond (levels s) v1 = true ->
     displayValueConstrained_of (levels s) v1 = Some c ->
     exists s1, ledStrip_update now1 v1 s = Some s1 /\
       forall s2, prev_range s2 = prev_range s1 ->
         in_range_cond (levels s2) v2 = true ->
         displayValueConstrained_of (levels s2) v2 = Some c ->
         ledStrip_update now2 v2 s2 = Some s2) /\
  (in_range_cond (levels s) v1 = false -> alarm_cond (levels s) v1 = false ->
   exists s1, ledStrip_update now1 v1 s = Some s1 /\
     prev_range s1 = 100 /\
     (strip s1 = strip s \/ strip s1 = clearLEDs (strip s)) /\
     forall s2, prev_range s2 = prev_range s1 ->
       in_range_cond (levels s2) v2 = false -> alarm_cond (levels s2) v2 = false ->
       ledStrip_update now2 v2 s2 = Some s2).
Proof.
  split.
  - intros c Hi1 Hc1.
    destruct (displayValueConstrained_range _ _ _ Hc1) as [_ Hn1].
    rewrite (in_range_call now1 v1 _ s Hi1 Hn1). eexists. split; [reflexivity|].
    intros s2 Hp Hi2 Hc2.
    destruct (displayValueConstrained_range _ _ _ Hc2) as [_ Hn2].
    rewrite (in_range_call now2 v2 _ s2 Hi2 Hn2).
    f_equal. apply render_in_range_idle.
    rewrite Hp. apply render_in_range_prev.
  - intros Hi1 Ha1.
    unfold ledStrip_update at 1. rewrite Hi1, Ha1. eexists. split; [reflexivity|].
    assert (Hp : prev_range (render_below s) = 100).
    { unfold render_below.
      destruct (Z.eqb_spec (prev_range s) 100) as [E | E]; cbn [negb]; fields; auto. }
    split; [exact Hp|]. split.
    + unfold render_below. destruct (negb _); fields; auto.
    + intros s2 Hp2 Hi2 Ha2. unfold ledStrip_update. rewrite Hi2, Ha2.
      unfold render_below. rewrite Hp2, Hp. reflexivity.
Qed.

Lemma C5_write_debounce_witness :
  let s := tachometer in
  displayValueConstrained_of (levels s) (F32.of_Z 5000) = Some 6 /\
  displayValueConstrained_of (levels s) (F32.of_Z 5050) = Some 6 /\
  (exists s1, ledStrip_update 10 (F32.of_Z 5000) s = Some s1 /\
              ledStrip_update 20 (F32.of_Z 5050) s1 = Some s1) /\
  (exists s1, ledStrip_update 10 (F32.of_Z 3000) (set_prev_range 4 s) = Some s1 /\
              ledStrip_update 20 (F32.of_Z 3500) s1 = Some s1).
Proof.
  intros s.
  assert (Hc1 : displayValueConstrained_of (levels s) (F32.of_Z 5000) = Some 6)
    by (vm_compute; reflexivity).
  assert (Hc2 : displayValueConstrained_of (levels s) (F32.of_Z 5050) = Some 6)
    by (vm_compute; reflexivity).
  assert (Hi1 : in_range_cond (levels s) (F32.of_Z 5000) = true) by (vm_compute; reflexivity).
  assert (Hi2 : in_range_cond (levels s) (F32.of_Z 5050) = true) by (vm_compute; reflexivity).
  split; [exact Hc1|]. split; [exact Hc2|]. split.
  - destruct (C5_write_debounce 10 20 (F32.of_Z 5000) (F32.of_Z 5050) s) as [H _].
    destruct (H 6 Hi1 Hc1) as (s1 & E1 & Hnext).
    exists s1. split; [exact E1|].
    destruct (ledStrip_update_frame _ _ _ _ E1) as (El & _).
    apply Hnext; [reflexivity | now rewrite El | now rewrite El].
  - destruct (C5_write_debounce 10 20 (F32.of_Z 3000) (F32.of_Z 3500)
                (set_prev_range 4 s)) as [_ H].
    assert (Hb1 : in_range_cond (levels (set_prev_range 4 s)) (F32.of_Z 3000) = false)
      by (vm_compute; reflexivity).
    assert (Ha1 : alarm_cond (levels (set_prev_range 4 s)) (F32.of_Z 3000) = false)
      by (vm_compute; reflexivity).
    assert (Hb2 : in_range_cond (levels (set_prev_range 4 s)) (F32.of_Z 3500) = false)
      by (vm_compute; reflexivity).
    assert (Ha2 : alarm_cond (levels (set_prev_range 4 s)) (F32.of_Z 3500) = false)
      by (vm_compute; reflexivity).
    destruct (H Hb1 Ha1) as (s1 & E1 & _ & _ & Hnext).
    exists s1. split; [exact E1|].
    destruct (ledStrip_update_frame _ _ _ _ E1) as (El & _).
    apply Hnext; [reflexivity | now rewrite El | now rewrite El].
Defined.

(** C9 (amended). An alarm call always leaves 8 in [prev_range].  Unlike
    the marker 100 of the below-range branch, 8 is an index the in-range
    branch can compute itself (the indices are -1..15); an in-range call
    that follows an alarm call and computes the index 8 therefore changes
    nothing: no pixel write, no commit.  The strip stays as the alarm call
    left it: with the blink pattern (the third colour on the even or on the
    odd pixels) when that alarm call toggled, and otherwise with whatever
    it showed before the alarm call.  The in-range call is taken in any
    state [s2] with the [prev_range] and the strip the alarm call left, as
    the loop does nothing to them in between. *)
Theorem C9_alarm_marker_is_an_index (now1 now2 : Z) (v1 v2 : spec_float) (s : Sketch) :
  in_range_cond (levels s) v1 = false -> alarm_cond (levels s) v1 = true ->
  exists s1, ledStrip_update now1 v1 s = Some s1 /\
    prev_range s1 = 8 /\
    -1 <= 8 <= NUMNEOPIXELS - 1 /\
    (forall l v, numOfLEDs_of l v <> Some 100) /\
    (forall s2, prev_range s2 = prev_range s1 -> strip s2 = strip s1 ->
       in_range_cond (levels s2) v2 = true -> numOfLEDs_of (levels s2) v2 = Some 8 ->
       ledStrip_update now2 v2 s2 = Some s2) /\
    (blinkInterval < elapsed_since (prevBlinkTime s) now1 -> ring (strip s) ->
       pixels (strip s1)
       = (if warningState s =? 0
          then alternating (color_2 (levels s)) 0
          else alternating 0 (color_2 (levels s))) /\
       latched (strip s1) = pixels (strip s1)) /\
    (elapsed_since (prevBlinkTime s) now1 <= blinkInterval -> strip s1 = strip s).
Proof.
  intros Hi1 Ha1.
  rewrite (alarm_call _ _ _ Hi1 Ha1). eexists. split; [reflexivity|].
  set (s1 := render_alarm (to_ulong now1) s).
  assert (Hp : prev_range s1 = 8).
  { subst s1. unfold render_alarm. fields.
    destruct (_ >? _); fields; [|reflexivity].
    destruct (warningState s =? 0); reflexivity. }
  destruct (render_alarm_strip now1 s) as [Htoggle Hwait]. fold s1 in Htoggle, Hwait.
  split; [exact Hp|]. split; [unfold NUMNEOPIXELS; lia|].
  split; [|split; [|split; assumption]].
  - intros l v H. apply numOfLEDs_range in H. unfold NUMNEOPIXELS in H. lia.
  - intros s2 Hp2 Hst Hi2 Hn2.
    rewrite (in_range_call now2 v2 _ s2 Hi2 Hn2).
    now rewrite render_in_range_idle by congruence.
Qed.

Lemma C9_alarm_marker_witness :
  let s := tachometer in
  numOfLEDs_of (levels s) (F32.of_Z 5100) = Some 8 /\
  exists s1, ledStrip_update 1000 (F32.of_Z 6500) s = Some s1 /\
             latched (strip s1) = alternating (Wheel 86) 0 /\
             ledStrip_update 1100 (F32.of_Z 5100) s1 = Some s1.
Proof.
  intros s.
  assert (Hn : numOfLEDs_of (levels s) (F32.of_Z 5100) = Some 8)
    by (vm_compute; reflexivity).
  split; [exact Hn|].
  assert (Hi1 : in_range_cond (levels s) (F32.of_Z 6500) = false) by (vm_compute; reflexivity).
  assert (Ha1 : alarm_cond (levels s) (F32.of_Z 6500) = true) by (vm_compute; reflexivity).
  assert (Hi2 : in_range_cond (levels s) (F32.of_Z 5100) = true) by (vm_compute; reflexivity).
  assert (Hel : blinkInterval < elapsed_since (prevBlinkTime s) 1000)
    by (vm_compute; reflexivity).
  destruct (C9_alarm_marker_is_an_index 1000 1100 (F32.of_Z 6500) (F32.of_Z 5100) s Hi1 Ha1)
    as (s1 & E1 & _ & _ & _ & Hnext & Hpattern & _).
  destruct (ledStrip_update_frame _ _ _ _ E1) as (El & _).
  destruct (Hpattern Hel (proj1 tachometer_ready)) as [Hpx Hla].
  exists s1. split; [exact E1|]. split.
  - rewrite Hla, Hpx. reflexivity.
  - apply Hnext; [reflexivity | reflexivity | now rewrite El | now rewrite El].
Defined.

(** An alarm call that does not toggle leaves no blink pattern: alarm at
    1000 (toggles), in-range 5900 at 1050 (14 pixels lit), alarm at 1100
    (within the interval: no write, but [prev_range] becomes 8), in-range
    5100 at 1120 (index 8: nothing written).  The ring still shows the 14
    pixels of the reading 5900. *)
Lemma C9_no_blink_pattern_left :
  let call := fun t x s => ledStrip_update t (F32.of_Z x) s in
  let trace :=
    s1 ← call 1000 6500 tachometer;
    s2 ← call 1050 5900 s1;
    s3 ← call 1100 6500 s2;
    s4 ← call 1120 5100 s3;
    Some (s2, s3, s4) in
  exists s2 s3 s4, trace = Some (s2, s3, s4) /\
    prev_range s3 = 8 /\ strip s3 = strip s2 /\
    numOfLEDs_of (levels s3) (F32.of_Z 5100) = Some 8 /\
    s4 = s3 /\
    lit_pixels (strip s4) = 14%nat /\
    latched (strip s4) <> alternating (color_2 (levels s4)) 0 /\
    latched (strip s4) <> alternating 0 (color_2 (levels s4)).
Proof.
  intros call trace.
  destruct trace as [[[s2 s3] s4]|] eqn:E; [|vm_compute in E; discriminate].
  vm_compute in E. injection E as <- <- <-.
  do 3 eexists. split; [reflexivity|].
  repeat (split; [vm_compute; reflexivity|]).
  split; vm_compute; discriminate.
Qed.

End RendererWrites.

(** ** Gauge configuration and the "No Data" path *)

Section LoopConfiguration.

Lemma handle_button_frame pin s :
  levels (handle_button pin s) = levels s /\ oled (handle_button pin s) = oled s /\
  strip (handle_button pin s) = strip s /\ prev_range (handle_button pin s) = prev_range s.
Proof.
  unfold handle_button.
  destruct (negb pin && negb (button_was_pressed s)); fields; [|tauto].
  destruct (_ >? 8); fields; tauto.
Qed.

(** The boundaries every mode configures. *)
Lemma mode_config_levels g s :
  levels_ordered (levels (mode_config g s)) /\
  (g <> 5 -> ledStages_1 (levels (mode_config g s)) <= NUMNEOPIXELS - 1) /\
  (g = 5 -> ledStages_1 (levels (mode_config g s)) = NUMNEOPIXELS).
Proof.
  unfold mode_config, levels_ordered.
  split_mode g; cbn; unfold numPixels, NUMNEOPIXELS;
    repeat split; intros; try lia; try congruence.
Qed.

(** C4 (amended). After every gauge configuration the loop applies, the
    boundaries satisfy [16 >= ledStages[1] >= ledStages[2] >= 0]; the first
    boundary is at most 15 in every mode except the fuel level, whose
    override sets it to 16, the number of pixels.  An iteration either
    shows "No Data" and keeps the configuration, or ends with the
    configuration of its mode. *)
Theorem C4_level_boundaries (g : Z) (s : Sketch) :
  (0 <= ledStages_2 (levels (mode_config g s))
     <= ledStages_1 (levels (mode_config g s)) /\
   ledStages_1 (levels (mode_config g s)) <= NUMNEOPIXELS) /\
  (g <> 5 -> ledStages_1 (levels (mode_config g s)) <= NUMNEOPIXELS - 1) /\
  (g = 5 -> ledStages_1 (levels (mode_config g s)) = NUMNEOPIXELS) /\
  (forall i s', gaugeType s = g -> loop i s = Some s' ->
     (oled s' = NoData :: oled s /\ levels s' = levels s) \/
     levels s' = levels (mode_config g s)).
Proof.
  destruct (mode_config_levels g s) as (Hord & Hne & Heq).
  split; [exact Hord|]. split; [exact Hne|]. split; [exact Heq|].
  intros i s' <- H.
  destruct (loop_cases i s) as [E | (v & w & p & lbl & E)]; rewrite E in H.
  - injection H as <-. left.
    destruct (handle_button_frame (digitalRead i) (draw NoData s)) as (-> & -> & _).
    split; reflexivity.
  - destruct (gauge _ _ _ _ _ _ _) as [s1|] eqn:G; cbn in H; [|discriminate].
    injection H as <-. right.
    destruct (handle_button_frame (digitalRead i) s1) as (-> & _).
    now apply gauge_frame in G.
Qed.

Lemma C4_level_boundaries_witness :
  gaugeType (set_gaugeType 5 initial) = 5 /\
  ledStages_1 (levels (mode_config 5 (set_gaugeType 5 initial))) = NUMNEOPIXELS /\
  ledStages_1 (levels (mode_config 1 initial)) <= NUMNEOPIXELS - 1.
Proof.
  split; [reflexivity|]. split.
  - apply (C4_level_boundaries 5 (set_gaugeType 5 initial)). reflexivity.
  - apply (C4_level_boundaries 1 initial). discriminate.
Defined.

(** In the fuel-level mode the configured first boundary is 16, above
    [pixelCount - 1]. *)
Lemma C4_fuel_level_boundary :
  exists s', loop (iteration (fun _ => F32.of_Z 50) 1000) (set_gaugeType 5 initial) = Some s' /\
    ledStages_1 (levels s') = 16 /\
    ~ (NUMNEOPIXELS - 1 >= ledStages_1 (levels s')
       /\ ledStages_1 (levels s') >= ledStages_2 (levels s')
       /\ ledStages_2 (levels s') >= 0).
Proof.
  destruct (loop (iteration (fun _ => F32.of_Z 50) 1000) (set_gaugeType 5 initial))
    as [s'|] eqn:E; [|vm_compute in E; discriminate].
  exists s'. split; [reflexivity|].
  assert (H : ledStages_1 (levels s') = 16).
  { assert (E' : option_map (fun x => ledStages_1 (levels x)) (Some s') = Some 16)
      by (rewrite <- E; vm_compute; reflexivity).
    now injection E'. }
  split; [exact H|]. rewrite H. unfold NUMNEOPIXELS. lia.
Qed.

(** When every query of the mode answers the sentinel, the iteration shows
    "No Data" and does nothing else before the button. *)
Lemma loop_no_data (i : Inputs) (s : Sketch) :
  gaugeType s <> 8 ->
  Forall (fun pid => ecu_req i pid = NO_DATA) (queries (gaugeType s)) ->
  loop i s = Some (handle_button (digitalRead i) (draw NoData s)).
Proof.
  intros H8 Hq. unfold loop. unfold queries in Hq.
  assert (Hs : F32.ne NO_DATA NO_DATA = false) by reflexivity.
  split_mode (gaugeType s);
    repeat match goal with
           | H : Forall _ (_ :: _) |- _ => inversion H; subst; clear H
           | H : ecu_req _ _ = NO_DATA |- _ => rewrite H; clear H
           end;
    rewrite ?Hs; cbn [orb]; try reflexivity.
  exfalso. apply H8. reflexivity.
Qed.

(** C2 at its failing input: Instant MPG mode, the speed query answers 30
    and the air-flow query answers the sentinel.  The iteration draws a
    reading instead of "No Data", applies the configuration, writes the
    strip and commits it. *)
Theorem C2_sentinel_still_renders :
  let answer := fun pid => match pid with VEHICLE_SPEED => F32.of_Z 30 | _ => NO_DATA end in
  let i := iteration answer 1000 in
  let s := set_gaugeType 3 initial in
  ecu_req i MAF_SENSOR = NO_DATA /\
  exists s' value,
    loop i s = Some s' /\
    oled s' = [Reading "Instant MPG" value 4 1] /\
    F32.truncate value = Some 236 /\
    levels s' = levels (mode_config 3 s) /\
    levels s' <> levels s /\
    hd_error (calls (strip s')) = Some CallShow /\
    lit_pixels (strip s') = 16%nat.
Proof.
  intros answer i s. split; [reflexivity|].
  destruct (loop i s) as [s'|] eqn:E; [|vm_compute in E; discriminate].
  vm_compute in E. injection E as <-.
  eexists. exists (S754_finite false 15524435 (-16)). split; [reflexivity|].
  split; [vm_compute; reflexivity|].
  split; [vm_compute; reflexivity|].
  split; [vm_compute; reflexivity|].
  split; [vm_compute; discriminate|].
  split; vm_compute; reflexivity.
Qed.

(** The loop keeps the strip a 16-pixel ring, and every configuration it
    applies has visible colours: the two side conditions of the in-range
    statements hold whenever the loop calls the renderer. *)
Lemma count_up_length (body : Z -> Adafruit_NeoPixel -> Adafruit_NeoPixel) stop step :
  (forall j st, length (pixels (body j st)) = length (pixels st)) ->
  forall (rounds : nat) i st,
    length (pixels (count_up rounds i stop step body st)) = length (pixels st).
Proof.
  intros Hbody rounds.
  induction rounds as [|rounds IH]; intros i st; cbn [count_up]; [reflexivity|].
  destruct (i <? stop); [|reflexivity]. now rewrite IH, Hbody.
Qed.

Lemma for_up_length (body : Z -> Adafruit_NeoPixel -> Adafruit_NeoPixel) start stop step st :
  (forall j st, length (pixels (body j st)) = length (pixels st)) ->
  length (pixels (for_up start stop step body st)) = length (pixels st).
Proof. intros Hbody. unfold for_up. now apply count_up_length. Qed.

Lemma show_pixels st : pixels (show st) = pixels st.
Proof. reflexivity. Qed.

Lemma clearLEDs_length st : length (pixels (clearLEDs st)) = length (pixels st).
Proof.
  unfold clearLEDs. rewrite show_pixels.
  apply for_up_length. intros j st'. apply setPixelColor_length.
Qed.

Lemma render_in_range_length n s :
  length (pixels (strip (render_in_range n s))) = length (pixels (strip s)).
Proof.
  unfold render_in_range. destruct (negb _); fields; [|reflexivity].
  rewrite show_pixels. unfold for_down.
  rewrite count_down_paint_length. apply clearLEDs_length.
Qed.

Lemma render_alarm_length t s :
  length (pixels (strip (render_alarm t s))) = length (pixels (strip s)).
Proof.
  unfold render_alarm. fields. destruct (_ >? _); fields; [|reflexivity].
  destruct (warningState s =? 0); fields; rewrite show_pixels;
    rewrite !for_up_length; try reflexivity;
    intros j st'; apply setPixelColor_length.
Qed.

Lemma render_below_length s :
  length (pixels (strip (render_below s))) = length (pixels (strip s)).
Proof.
  unfold render_below. destruct (negb _); fields; [|reflexivity].
  apply clearLEDs_length.
Qed.

Lemma ledStrip_update_ring now v s s' :
  ring (strip s) -> ledStrip_update now v s = Some s' -> ring (strip s').
Proof.
  unfold ring. intros Hring. unfold ledStrip_update.
  destruct (in_range_cond _ _).
  - destruct (numOfLEDs_of _ _) as [n|]; cbn [mbind option_bind]; [|discriminate].
    intros [= <-]. now rewrite render_in_range_length.
  - destruct (alarm_cond _ _); intros [= <-].
    + now rewrite render_alarm_length.
    + now rewrite render_below_length.
Qed.

(** The renderer has a result as soon as the reading converts to a [long]
    and the two thresholds differ; outside the first branch it always
    has. *)
Lemma ledStrip_update_defined now v s :
  (in_range_cond (levels s) v = true ->
     F32.truncate v <> None /\
     to_long (stagePT_1 (levels s) - stagePT_0 (levels s)) <> 0) ->
  exists s', ledStrip_update now v s = Some s'.
Proof.
  intros H. unfold ledStrip_update.
  destruct (in_range_cond (levels s) v).
  - destruct H as [Hx Hd]; [reflexivity|].
    unfold numOfLEDs_of, displayValueConstrained_of, map.
    destruct (F32.truncate v) as [x|]; [|contradiction].
    cbn [mbind option_bind].
    destruct (Z.eqb_spec (to_long (stagePT_1 (levels s) - stagePT_0 (levels s))) 0);
      [contradiction|].
    cbn [mbind option_bind]. eauto.
  - destruct (alarm_cond (levels s) v); eauto.
Qed.

Lemma loop_ring i s s' : ring (strip s) -> loop i s = Some s' -> ring (strip s').
Proof.
  intros Hring H.
  destruct (loop_cases i s) as [E | (v & w & p & lbl & E)]; rewrite E in H.
  - injection H as <-.
    destruct (handle_button_frame (digitalRead i) (draw NoData s)) as (_ & _ & -> & _).
    exact Hring.
  - destruct (gauge _ _ _ _ _ _ _) as [s1|] eqn:G; cbn in H; [|discriminate].
    injection H as <-.
    destruct (handle_button_frame (digitalRead i) s1) as (_ & _ & -> & _).
    unfold gauge in G. apply ledStrip_update_ring in G; [assumption|].
    destruct (OLED_update_frame (millis_display i) v w p lbl
                (mode_config (gaugeType s) s)) as (_ & -> & _).
    destruct (mode_config_frame (gaugeType s) s) as (_ & _ & -> & _).
    exact Hring.
Qed.

Lemma mode_config_visible g s : visible_colors (levels (mode_config g s)).
Proof.
  unfold mode_config, visible_colors.
  split_mode g; cbn; repeat split; apply Wheel_visible.
Qed.

End LoopConfiguration.

(** ** The display updater *)

Section DisplayFacts.

(** An unchanged value is ignored. *)
Lemma OLED_update_same now v w p lbl s :
  F32.ne (lastDisplayValue s) v = false -> OLED_update now v w p lbl s = s.
Proof. intros H. unfold OLED_update. now rewrite H. Qed.

(** A changed value within the interval is recorded, not drawn. *)
Lemma OLED_update_limited now v w p lbl s :
  F32.ne (lastDisplayValue s) v = true ->
  elapsed_since (prevDispTime s) now <= dispInterval ->
  OLED_update now v w p lbl s = set_lastDisplayValue v s.
Proof.
  intros Hne Hel. unfold OLED_update. rewrite Hne. fields.
  rewrite timer_elapsed. change (to_ulong dispInterval) with dispInterval.
  destruct (Z.gtb_spec (elapsed_since (prevDispTime s) now) dispInterval); [lia|].
  reflexivity.
Qed.

(** A changed value past the interval is recorded and drawn. *)
Lemma OLED_update_redraw now v w p lbl s :
  F32.ne (lastDisplayValue s) v = true ->
  dispInterval < elapsed_since (prevDispTime s) now ->
  OLED_update now v w p lbl s =
    draw (Reading lbl v w p)
      (set_prevDispTime (to_long (to_ulong now)) (set_lastDisplayValue v s)).
Proof.
  intros Hne Hel. unfold OLED_update. rewrite Hne. fields.
  rewrite timer_elapsed. change (to_ulong dispInterval) with dispInterval.
  destruct (Z.gtb_spec (elapsed_since (prevDispTime s) now) dispInterval); [|lia].
  reflexivity.
Qed.

(** A value drawn at [now] followed within the interval by another one:
    one redraw, and the picture is the first value. *)
Lemma OLED_update_first_value_stays now d v1 v2 w p lbl s :
  F32.ne (lastDisplayValue s) v1 = true -> F32.ne v1 v2 = true ->
  dispInterval < elapsed_since (prevDispTime s) now ->
  0 <= d <= dispInterval ->
  oled (OLED_update (now + d) v2 w p lbl (OLED_update now v1 w p lbl s))
    = Reading lbl v1 w p :: oled s.
Proof.
  intros H1 H2 Hel Hd.
  rewrite (OLED_update_redraw now v1) by assumption.
  rewrite OLED_update_limited; fields; try assumption; [reflexivity|].
  rewrite elapsed_after_rearm; unfold dispInterval in *; lia.
Qed.

(** C1 at its failing inputs.  Two changed values arrive within 100 ms of
    the last redraw: neither call redraws (no redraw at all, where one is
    expected), the second value is recorded as [lastDisplayValue], and a
    later call with that same value, at any time, is ignored: the most
    recent value is not drawn once the interval has elapsed. *)
Theorem C1_latest_value_not_drawn
    (t1 t2 t3 : Z) (v1 v2 : spec_float) (w p : Z) (lbl : string) (s : Sketch) :
  elapsed_since (prevDispTime s) t1 <= dispInterval ->
  elapsed_since (prevDispTime s) t2 <= dispInterval ->
  F32.ne (lastDisplayValue s) v1 = true -> F32.ne v1 v2 = true ->
  F32.ne v2 v2 = false ->
  let s2 := OLED_update t2 v2 w p lbl (OLED_update t1 v1 w p lbl s) in
  redraws s s2 = 0 /\ oled s2 = oled s /\ lastDisplayValue s2 = v2 /\
  OLED_update t3 v2 w p lbl s2 = s2.
Proof.
  intros He1 He2 Hn1 Hn2 Hnum s2. subst s2.
  rewrite (OLED_update_limited t1 v1) by assumption.
  rewrite (OLED_update_limited t2 v2) by (fields; assumption).
  unfold redraws. fields.
  repeat split; try reflexivity; try lia.
  apply OLED_update_same. fields. exact Hnum.
Qed.

Lemma C1_latest_value_witness :
  let s := OLED_update 1000 (F32.of_Z 1) 4 0 "RPM" initial in
  oled s = [Reading "RPM" (F32.of_Z 1) 4 0] /\
  let s2 := OLED_update 1020 (F32.of_Z 3) 4 0 "RPM"
              (OLED_update 1010 (F32.of_Z 2) 4 0 "RPM" s) in
  oled s2 = [Reading "RPM" (F32.of_Z 1) 4 0] /\
  oled (OLED_update 1200 (F32.of_Z 3) 4 0 "RPM" s2) = [Reading "RPM" (F32.of_Z 1) 4 0].
Proof.
  intros s.
  assert (Ho : oled s = [Reading "RPM" (F32.of_Z 1) 4 0]) by (vm_compute; reflexivity).
  split; [exact Ho|].
  assert (He1 : elapsed_since (prevDispTime s) 1010 <= dispInterval)
    by (vm_compute; discriminate).
  assert (He2 : elapsed_since (prevDispTime s) 1020 <= dispInterval)
    by (vm_compute; discriminate).
  assert (Hn1 : F32.ne (lastDisplayValue s) (F32.of_Z 2) = true) by (vm_compute; reflexivity).
  assert (Hn2 : F32.ne (F32.of_Z 2) (F32.of_Z 3) = true) by (vm_compute; reflexivity).
  assert (Hnum : F32.ne (F32.of_Z 3) (F32.of_Z 3) = false) by (vm_compute; reflexivity).
  destruct (C1_latest_value_not_drawn 1010 1020 1200 _ _ 4 0 "RPM" s
              He1 He2 Hn1 Hn2 Hnum) as (_ & E2 & _ & E3).
  intros s2. subst s2. rewrite E3, E2. split; exact Ho.
Defined.

End DisplayFacts.

(** * Further properties of the sketch *)

(** ** Colours *)

Section ColourFacts.

Lemma to_byte_bits_high x n : 8 <= n -> Z.testbit (to_byte x) n = false.
Proof. intros H. unfold to_byte. apply Z.mod_pow2_bits_high. lia. Qed.

Lemma byte_mask_bits n : 0 <= n -> Z.testbit 255 n = (n <? 8).
Proof.
  intros H. change 255 with (Z.ones 8).
  destruct (Z.ltb_spec n 8).
  - apply Z.ones_spec_low. lia.
  - apply Z.ones_spec_high. lia.
Qed.

(** [Color] packs three bytes and the channel readers give them back:
    each channel of [Color r g b] is the corresponding argument reduced to
    a byte, whatever the arguments. *)
Lemma Color_channels (r g b : Z) :
  red (Color r g b) = to_byte r /\
  green (Color r g b) = to_byte g /\
  blue (Color r g b) = to_byte b.
Proof.
  unfold red, green, blue, Color.
  repeat split; apply Z.bits_inj'; intros n Hn;
    rewrite Z.land_spec, byte_mask_bits by assumption;
    rewrite ?Z.shiftr_spec by assumption;
    rewrite !Z.lor_spec, !Z.shiftl_spec by lia.
  - replace (n + 16 - 16) with n by lia.
    rewrite (to_byte_bits_high g (n + 16 - 8)), (to_byte_bits_high b (n + 16)) by lia.
    rewrite !orb_false_r.
    destruct (Z.ltb_spec n 8); [apply andb_true_r|].
    rewrite to_byte_bits_high by lia. reflexivity.
  - replace (n + 8 - 8) with n by lia.
    rewrite (to_byte_bits_high b (n + 8)) by lia. rewrite orb_false_r.
    destruct (Z.ltb_spec n 8).
    + rewrite (Z.testbit_neg_r (to_byte r) (n + 8 - 16)) by lia.
      cbn [orb]. apply andb_true_r.
    + rewrite (to_byte_bits_high g n) by lia. apply andb_false_r.
  - destruct (Z.ltb_spec n 8).
    + rewrite (Z.testbit_neg_r (to_byte r) (n - 16)), (Z.testbit_neg_r (to_byte g) (n - 8))
        by lia.
      cbn [orb]. apply andb_true_r.
    + rewrite (to_byte_bits_high b n) by lia. apply andb_false_r.
Qed.

(** X2. Every position of the wheel has full intensity spread over its
    channels: red, green and blue of [Wheel p] add up to 255, for every
    argument (the argument is reduced to a byte first). *)
Theorem X2_wheel_channels_sum (p : Z) :
  red (Wheel p) + green (Wheel p) + blue (Wheel p) = 255.
Proof.
  rewrite <- Wheel_byte.
  assert (Hb : 0 <= to_byte p < 256) by (unfold to_byte; apply Z.mod_pos_bound; lia).
  assert (Hall : forallb
                   (fun q => red (Wheel q) + green (Wheel q) + blue (Wheel q) =? 255)
                   (seqZ 0 256) = true)
    by (vm_compute; reflexivity).
  pose proof (check_below _ _ Hall _ Hb) as H. cbv beta in H.
  now apply Z.eqb_eq in H.
Qed.

(** X3. The wheel is continuous: from one position to the next no channel
    moves by more than 3, band boundaries included. *)
Theorem X3_wheel_smooth (p : Z) :
  0 <= p < 255 ->
  Z.abs (red (Wheel (p + 1)) - red (Wheel p)) <= 3 /\
  Z.abs (green (Wheel (p + 1)) - green (Wheel p)) <= 3 /\
  Z.abs (blue (Wheel (p + 1)) - blue (Wheel p)) <= 3.
Proof.
  intros Hp.
  assert (Hall : forallb
                   (fun q =>
                      (Z.abs (red (Wheel (q + 1)) - red (Wheel q)) <=? 3)
                      && (Z.abs (green (Wheel (q + 1)) - green (Wheel q)) <=? 3)
                      && (Z.abs (blue (Wheel (q + 1)) - blue (Wheel q)) <=? 3))
                   (seqZ 0 255) = true)
    by (vm_compute; reflexivity).
  pose proof (check_below _ _ Hall p Hp) as H. cbv beta in H.
  apply andb_true_iff in H. destruct H as [H Hb].
  apply andb_true_iff in H. destruct H as [Hr Hg].
  repeat split; now apply Z.leb_le.
Qed.

Lemma X3_wheel_smooth_witness :
  0 <= 84 < 255 /\ Z.abs (red (Wheel (84 + 1)) - red (Wheel 84)) <= 3.
Proof.
  split; [lia|]. apply (X3_wheel_smooth 84). lia.
Defined.

End ColourFacts.

(** ** The button over several samples *)

Section ButtonSequences.

Lemma handle_buttons_app pins1 pins2 s :
  handle_buttons (pins1 ++ pins2) s = handle_buttons pins2 (handle_buttons pins1 s).
Proof. unfold handle_buttons. apply foldl_app. Qed.

(** A released sample followed by a pressed one is an edge, whatever the
    sample before them was. *)
Lemma click_advances s :
  1 <= gaugeType s <= 8 ->
  gaugeType (handle_buttons click s) = next_mode (gaugeType s).
Proof.
  intros Hg. unfold click, handle_buttons. cbn [foldl].
  destruct (handle_button_no_edge true s) as [Eg Ew]; [auto|].
  destruct (handle_button_edge (handle_button true s) Ew) as [E _].
  rewrite E, Eg. rewrite to_int_id by lia. unfold next_mode.
  destruct (Z.gtb_spec (gaugeType s + 1) 8), (Z.eqb_spec (gaugeType s) 8); lia.
Qed.

Lemma next_mode_in_range g : 1 <= g <= 8 -> 1 <= next_mode g <= 8.
Proof. unfold next_mode. destruct (Z.eqb_spec g 8); lia. Qed.

(** X4. The mode counts the clicks modulo 8: after [n] clicks (a released
    sample then a pressed one, each) the mode that was [g] is
    [(g - 1 + n) mod 8 + 1]; eight clicks bring it back. *)
Theorem X4_clicks_count_modulo_8 (n : nat) (s : Sketch) :
  1 <= gaugeType s <= 8 ->
  gaugeType (handle_buttons (clicks n) s) = (gaugeType s - 1 + Z.of_nat n) mod 8 + 1 /\
  gaugeType (handle_buttons (clicks 8) s) = gaugeType s.
Proof.
  assert (Hn : forall n s, 1 <= gaugeType s <= 8 ->
             gaugeType (handle_buttons (clicks n) s)
             = (gaugeType s - 1 + Z.of_nat n) mod 8 + 1).
  { clear. induction n as [|n IH]; intros s Hg.
    - cbn. rewrite Z.add_0_r, Z.mod_small; lia.
    - cbn [clicks]. rewrite handle_buttons_app.
      pose proof (click_advances s Hg) as Ec.
      rewrite IH by (rewrite Ec; now apply next_mode_in_range).
      rewrite Ec. unfold next_mode.
      destruct (Z.eqb_spec (gaugeType s) 8) as [E8 | N8].
      + rewrite E8.
        replace (8 - 1 + Z.of_nat (S n)) with (Z.of_nat n + 1 * 8) by lia.
        rewrite Z_mod_plus_full. f_equal; f_equal; lia.
      + f_equal; f_equal; lia. }
  intros Hg. split; [now apply Hn|].
  rewrite Hn by assumption.
  replace (gaugeType s - 1 + Z.of_nat 8) with (gaugeType s - 1 + 1 * 8) by lia.
  rewrite Z_mod_plus_full, Z.mod_small; lia.
Qed.

Lemma X4_clicks_witness :
  1 <= gaugeType initial <= 8 /\
  gaugeType (handle_buttons (clicks 10) initial) = 3.
Proof.
  split; [cbn; lia|].
  destruct (X4_clicks_count_modulo_8 10 initial) as [E _]; [cbn; lia|].
  rewrite E. reflexivity.
Defined.

(** X5. A press counts once however long it lasts: from a released button,
    any number (at least one) of consecutive pressed samples advances the
    mode by exactly one. *)
Theorem X5_long_press_counts_once (k : nat) (s : Sketch) :
  1 <= gaugeType s <= 8 -> button_was_pressed s = false ->
  gaugeType (handle_buttons (replicate (S k) false) s) = next_mode (gaugeType s).
Proof.
  intros Hg Hw. cbn [replicate].
  change (false :: replicate k false) with ([false] ++ replicate k false).
  rewrite handle_buttons_app. unfold handle_buttons at 2. cbn [foldl].
  destruct (handle_button_edge s Hw) as [E Ew].
  destruct (handle_buttons_held (replicate k false) (handle_button false s) Ew)
    as [Eh _].
  { apply Forall_replicate. reflexivity. }
  rewrite Eh, E. rewrite to_int_id by lia. unfold next_mode.
  destruct (Z.gtb_spec (gaugeType s + 1) 8), (Z.eqb_spec (gaugeType s) 8); lia.
Qed.

Lemma X5_long_press_witness :
  let s := set_button_was_pressed false initial in
  1 <= gaugeType s <= 8 /\ button_was_pressed s = false /\
  gaugeType (handle_buttons (replicate 5 false) s) = 2.
Proof.
  intros s. split; [cbn; lia|]. split; [reflexivity|].
  rewrite (X5_long_press_counts_once 4 s); [reflexivity | cbn; lia | reflexivity].
Defined.

End ButtonSequences.

(** ** The display updater over time *)

Section DisplayTiming.

(** X6. The display timer works on the wrapping millisecond clock: with
    the last redraw at clock reading [t0] and a changed value arriving at
    reading [t1], the picture is redrawn exactly when more than 100 ms
    separate the two readings modulo [2 ^ 32], also when [t1 < t0] after
    the clock has wrapped and when [t0], stored in a [long], is
    negative. *)
Theorem X6_display_timer_wraps (t0 t1 : Z) (v : spec_float) (w p : Z) (lbl : string)
    (s : Sketch) :
  0 <= t0 < 2 ^ 32 -> 0 <= t1 < 2 ^ 32 ->
  prevDispTime s = to_long t0 ->
  F32.ne (lastDisplayValue s) v = true ->
  (dispInterval < (t1 - t0) mod 2 ^ 32 ->
     oled (OLED_update t1 v w p lbl s) = Reading lbl v w p :: oled s /\
     prevDispTime (OLED_update t1 v w p lbl s) = to_long t1) /\
  ((t1 - t0) mod 2 ^ 32 <= dispInterval ->
     oled (OLED_update t1 v w p lbl s) = oled s /\
     prevDispTime (OLED_update t1 v w p lbl s) = to_long t0).
Proof.
  intros H0 H1 Hp Hne.
  assert (E : elapsed_since (prevDispTime s) t1 = (t1 - t0) mod 2 ^ 32).
  { rewrite Hp. unfold elapsed_since.
    assert (Ht : to_ulong (t1 - to_long t0) = to_ulong (t1 - to_ulong (to_long t0))).
    { unfold to_ulong. now rewrite Zminus_mod_idemp_r. }
    rewrite Ht, to_ulong_to_long. unfold to_ulong.
    now rewrite Zminus_mod_idemp_r. }
  split; intros Hd.
  - rewrite OLED_update_redraw by (try assumption; rewrite E; assumption).
    fields. rewrite to_ulong_id_small by assumption. split; reflexivity.
  - rewrite OLED_update_limited by (try assumption; rewrite E; assumption).
    fields. split; [reflexivity | assumption].
Qed.

Lemma X6_display_timer_witness :
  let s := set_prevDispTime (to_long 4294967246) (set_lastDisplayValue (F32.of_Z 1) initial) in
  prevDispTime s = -50 /\
  oled (OLED_update 100 (F32.of_Z 2) 4 0 "RPM" s) = [Reading "RPM" (F32.of_Z 2) 4 0].
Proof.
  intros s. split; [reflexivity|].
  assert (H0 : 0 <= 4294967246 < 2 ^ 32) by lia.
  assert (H1 : 0 <= 100 < 2 ^ 32) by lia.
  assert (Hp : prevDispTime s = to_long 4294967246) by reflexivity.
  assert (Hne : F32.ne (lastDisplayValue s) (F32.of_Z 2) = true) by reflexivity.
  destruct (X6_display_timer_wraps 4294967246 100 (F32.of_Z 2) 4 0 "RPM" s H0 H1 Hp Hne)
    as [H _].
  apply H. vm_compute. reflexivity.
Defined.

(** X7. At most one redraw per 100 ms: once a value has been drawn, no
    call within the next 100 ms draws anything, whatever value and label it
    brings. *)
Theorem X7_display_rate_limit (now d : Z) (v1 v2 : spec_float) (w1 p1 w2 p2 : Z)
    (lbl1 lbl2 : string) (s : Sketch) :
  F32.ne (lastDisplayValue s) v1 = true ->
  dispInterval < elapsed_since (prevDispTime s) now ->
  0 <= d <= dispInterval ->
  oled (OLED_update (now + d) v2 w2 p2 lbl2 (OLED_update now v1 w1 p1 lbl1 s))
    = Reading lbl1 v1 w1 p1 :: oled s.
Proof.
  intros H1 Hel Hd.
  rewrite (OLED_update_redraw now v1) by assumption.
  set (s1 := draw _ _).
  assert (E : elapsed_since (prevDispTime s1) (now + d) = d).
  { subst s1. fields. apply elapsed_after_rearm. unfold dispInterval in Hd. lia. }
  destruct (F32.ne (lastDisplayValue s1) v2) eqn:Hne.
  - rewrite OLED_update_limited by (try assumption; rewrite E; lia).
    subst s1. fields. reflexivity.
  - rewrite OLED_update_same by assumption. subst s1. fields. reflexivity.
Qed.

Lemma X7_display_rate_limit_witness :
  oled (OLED_update (1000 + 100) (F32.of_Z 7) 3 1 "Speed (mph)"
          (OLED_update 1000 (F32.of_Z 5) 4 0 "RPM" initial))
  = [Reading "RPM" (F32.of_Z 5) 4 0].
Proof.
  apply (X7_display_rate_limit 1000 100 (F32.of_Z 5) (F32.of_Z 7) 4 0 3 1
           "RPM" "Speed (mph)" initial);
    [vm_compute; reflexivity | vm_compute; reflexivity | unfold dispInterval; lia].
Defined.

(** X8. A NaN reading never settles the change detection: [NaN != NaN] is
    true, so a NaN is recorded by every call and redrawn by every call
    that comes more than 100 ms after the last redraw, even when the value
    recorded before was already NaN. *)
Theorem X8_nan_always_changed (now : Z) (w p : Z) (lbl : string) (s : Sketch) :
  lastDisplayValue (OLED_update now S754_nan w p lbl s) = S754_nan /\
  (dispInterval < elapsed_since (prevDispTime s) now ->
     oled (OLED_update now S754_nan w p lbl s) = Reading lbl S754_nan w p :: oled s).
Proof.
  assert (Hne : F32.ne (lastDisplayValue s) S754_nan = true).
  { unfold F32.ne, SFeqb. destruct (lastDisplayValue s) as [[]|[]| |[] ? ?]; reflexivity. }
  split.
  - destruct (Z.lt_ge_cases dispInterval (elapsed_since (prevDispTime s) now)).
    + rewrite OLED_update_redraw by assumption. reflexivity.
    + rewrite OLED_update_limited by (try assumption; lia). reflexivity.
  - intros Hel. rewrite OLED_update_redraw by assumption. reflexivity.
Qed.

Lemma X8_nan_witness :
  let s := set_lastDisplayValue S754_nan initial in
  dispInterval < elapsed_since (prevDispTime s) 500 /\
  oled (OLED_update 500 S754_nan 4 0 "RPM" s) = [Reading "RPM" S754_nan 4 0].
Proof.
  intros s.
  assert (H : dispInterval < elapsed_since (prevDispTime s) 500) by (vm_compute; reflexivity).
  split; [exact H|].
  destruct (X8_nan_always_changed 500 4 0 "RPM" s) as [_ E]. now apply E.
Defined.

End DisplayTiming.

(** ** What the renderer leaves on the strip *)

Section StripContents.

Lemma count_down_paint_lookup l stop (j : nat) :
  -1 <= stop -> (j < 16)%nat ->
  forall (rounds : nat) (i : Z) (st : Adafruit_NeoPixel),
    i < NUMNEOPIXELS -> Z.of_nat rounds = i - stop + 1 ->
    length (pixels st) = 16%nat ->
    pixels (count_down rounds i stop (paint l) st) !! j
    = if (stop <=? Z.of_nat j) && (Z.of_nat j <=? i)
      then Some (stage_color l (Z.of_nat j))
      else pixels st !! j.
Proof.
  intros Hstop Hj rounds.
  induction rounds as [|rounds IH]; intros i st Hi Hr Hlen; cbn [count_down].
  - destruct (Z.leb_spec stop (Z.of_nat j)), (Z.leb_spec (Z.of_nat j) i);
      cbn [andb]; try reflexivity; lia.
  - destruct (Z.geb_spec i stop) as [Hge | Hlt]; [|lia].
    rewrite IH; [|lia|lia|now rewrite paint_eq, setPixelColor_length].
    rewrite paint_eq. unfold NUMNEOPIXELS in *.
    destruct (Z.eq_dec i (-1)) as [-> | Hne].
    + change (pixels (setPixelColor (-1) (stage_color l (-1)) st)) with (pixels st).
      destruct (Z.leb_spec stop (Z.of_nat j)), (Z.leb_spec (Z.of_nat j) (-1 - 1)),
        (Z.leb_spec (Z.of_nat j) (-1)); cbn [andb]; try reflexivity; lia.
    + rewrite setPixelColor_pixels_in by (unfold NUMNEOPIXELS; lia).
      destruct (Z.leb_spec stop (Z.of_nat j)), (Z.leb_spec (Z.of_nat j) (i - 1)),
        (Z.leb_spec (Z.of_nat j) i); cbn [andb]; try reflexivity; try lia.
      * assert (Ej : Z.to_nat i = j) by lia. subst j.
        rewrite list_lookup_insert_eq by lia. do 2 f_equal. lia.
      * apply list_lookup_insert_ne. lia.
      * apply list_lookup_insert_ne. lia.
Qed.

(** X9. What an in-range redraw leaves in the buffer, pixel by pixel: the
    pixels from [numOfLEDs] up are lit, each in the colour of its stage
    (at or above [ledStages[1]] the first colour, from [ledStages[2]] up
    the second, below it the third), and the pixels below [numOfLEDs] are
    off. *)
Theorem X9_in_range_redraw_pixels (now : Z) (v : spec_float) (n : Z) (j : nat)
    (s : Sketch) :
  ring (strip s) ->
  in_range_cond (levels s) v = true -> numOfLEDs_of (levels s) v = Some n ->
  prev_range s <> n -> (j < 16)%nat ->
  exists s', ledStrip_update now v s = Some s' /\
    pixels (strip s') !! j
    = Some (if n <=? Z.of_nat j then stage_color (levels s) (Z.of_nat j) else 0) /\
    latched (strip s') = pixels (strip s').
Proof.
  intros Hring Hin Hn Hne Hj.
  rewrite (in_range_call now v n s Hin Hn). eexists. split; [reflexivity|].
  destruct (numOfLEDs_range _ _ _ Hn) as [Hr _].
  unfold render_in_range.
  destruct (Z.eqb_spec (prev_range s) n) as [|_]; [contradiction|].
  cbn [negb]. fields. rewrite show_pixels.
  split; [|reflexivity].
  change (to_int (numPixels (clearLEDs (strip s)) - 1)) with 15.
  destruct (clearLEDs_pixels _ Hring) as [Hpx _].
  unfold for_down, NUMNEOPIXELS in *.
  rewrite (count_down_paint_lookup (levels s) n j ltac:(lia) Hj);
    [|unfold NUMNEOPIXELS; lia|lia|rewrite Hpx; apply length_replicate].
  rewrite Hpx, lookup_replicate_2 by assumption.
  destruct (Z.leb_spec n (Z.of_nat j)), (Z.leb_spec (Z.of_nat j) 15);
    cbn [andb]; try reflexivity; lia.
Qed.

Lemma X9_in_range_redraw_witness :
  exists s', ledStrip_update 0 (F32.of_Z 6100) tachometer = Some s' /\
    pixels (strip s') !! 3%nat = Some (Wheel 48) /\
    pixels (strip s') !! 0%nat = Some (Wheel 86).
Proof.
  destruct tachometer_ready as [Hring _].
  assert (Hin : in_range_cond (levels tachometer) (F32.of_Z 6100) = true)
    by (vm_compute; reflexivity).
  assert (Hn : numOfLEDs_of (levels tachometer) (F32.of_Z 6100) = Some 0)
    by (vm_compute; reflexivity).
  assert (Hne : prev_range tachometer <> 0) by (vm_compute; discriminate).
  destruct (X9_in_range_redraw_pixels 0 _ 0 3 tachometer Hring Hin Hn Hne ltac:(lia))
    as (s' & E & H3 & _).
  exists s'. split; [exact E|]. split; [exact H3|].
  destruct (X9_in_range_redraw_pixels 0 _ 0 0 tachometer Hring Hin Hn Hne ltac:(lia))
    as (s'' & E' & H0 & _).
  rewrite E in E'. injection E' as <-. exact H0.
Defined.

(** X10. What a toggling alarm call leaves on the ring: the third colour
    on the even pixels and black on the odd ones when the blink bit was 0,
    the opposite when it was not, committed; so two successive toggles
    show complementary patterns. *)
Theorem X10_alarm_pattern (now : Z) (v : spec_float) (s : Sketch) :
  ring (strip s) ->
  in_range_cond (levels s) v = false -> alarm_cond (levels s) v = true ->
  blinkInterval < elapsed_since (prevBlinkTime s) now ->
  exists s', ledStrip_update now v s = Some s' /\
    pixels (strip s')
    = (if warningState s =? 0
       then alternating (color_2 (levels s)) 0
       else alternating 0 (color_2 (levels s))) /\
    latched (strip s') = pixels (strip s') /\
    warningState s' = toggled (warningState s).
Proof.
  intros Hring Hi Ha Hel.
  rewrite (alarm_call _ _ _ Hi Ha). eexists. split; [reflexivity|].
  destruct (render_alarm_toggle now s Hel) as (Ew & _).
  split; [|split; [|exact Ew]].
  - unfold render_alarm. fields.
    rewrite timer_elapsed. change (to_ulong blinkInterval) with blinkInterval.
    destruct (Z.gtb_spec (elapsed_since (prevBlinkTime s) now) blinkInterval); [|lia].
    destruct (blink_patterns (strip s) (color_2 (levels s)) Hring) as [Ee Eo].
    destruct (warningState s =? 0); fields; rewrite show_pixels; assumption.
  - unfold render_alarm. fields.
    rewrite timer_elapsed. change (to_ulong blinkInterval) with blinkInterval.
    destruct (Z.gtb_spec (elapsed_since (prevBlinkTime s) now) blinkInterval); [|lia].
    destruct (warningState s =? 0); fields; reflexivity.
Qed.

Lemma X10_alarm_pattern_witness :
  exists s', ledStrip_update 1000 (F32.of_Z 7000) tachometer = Some s' /\
    pixels (strip s') = alternating (Wheel 86) 0.
Proof.
  destruct tachometer_ready as [Hring _].
  assert (Hi : in_range_cond (levels tachometer) (F32.of_Z 7000) = false)
    by (vm_compute; reflexivity).
  assert (Ha : alarm_cond (levels tachometer) (F32.of_Z 7000) = true)
    by (vm_compute; reflexivity).
  assert (Hel : blinkInterval < elapsed_since (prevBlinkTime tachometer) 1000)
    by (vm_compute; reflexivity).
  destruct (X10_alarm_pattern 1000 _ tachometer Hring Hi Ha Hel) as (s' & E & Hp & _).
  exists s'. split; [exact E|]. exact Hp.
Defined.

(** X11. When the first boundary is at or above the number of pixels, as
    the fuel-level case sets it, the drawing loop never uses the first
    colour: a pixel inside the strip gets the second colour from
    [ledStages[2]] up and the third one below. *)
Theorem X11_first_colour_unused (l : Levels) (ledNum : Z) (st : Adafruit_NeoPixel) :
  NUMNEOPIXELS <= ledStages_1 l -> 0 <= ledNum < NUMNEOPIXELS ->
  paint l ledNum st
  = setPixelColor ledNum (if ledNum >=? ledStages_2 l then color_1 l else color_2 l) st.
Proof.
  intros H1 Hn. rewrite paint_eq. unfold stage_color.
  destruct (Z.geb_spec ledNum (ledStages_1 l)); [lia | reflexivity].
Qed.

Lemma X11_fuel_level_witness :
  let l := levels (mode_config 5 initial) in
  NUMNEOPIXELS <= ledStages_1 l /\
  paint l 15 (strip initial) = setPixelColor 15 (Wheel 48) (strip initial) /\
  paint l 11 (strip initial) = setPixelColor 11 (Wheel 0) (strip initial).
Proof.
  intros l.
  assert (H : NUMNEOPIXELS <= ledStages_1 l) by (vm_compute; discriminate).
  split; [exact H|]. split.
  - rewrite (X11_first_colour_unused l 15 _ H) by (unfold NUMNEOPIXELS; lia). reflexivity.
  - rewrite (X11_first_colour_unused l 11 _ H) by (unfold NUMNEOPIXELS; lia). reflexivity.
Defined.

(** X14. A NaN reading compares false with both thresholds, so whatever
    the configuration the renderer takes its last branch: the strip is
    cleared (all pixels off, committed) unless [prev_range] is already the
    marker 100, in which case nothing at all changes; [prev_range] is 100
    afterwards; no alarm is raised: the blink bit and its timer are not
    touched and no blink pattern is written. *)
Theorem X14_nan_reading_clears (now : Z) (s : Sketch) :
  exists s', ledStrip_update now S754_nan s = Some s' /\
    prev_range s' = 100 /\
    warningState s' = warningState s /\ prevBlinkTime s' = prevBlinkTime s /\
    (prev_range s = 100 -> s' = s) /\
    (prev_range s <> 100 ->
       strip s' = clearLEDs (strip s) /\
       (ring (strip s) ->
          pixels (strip s') = replicate 16 0 /\ latched (strip s') = replicate 16 0 /\
          lit_pixels (strip s') = 0%nat)).
Proof.
  assert (Hge : forall x, F32.ge S754_nan x = false).
  { intros x. unfold F32.ge, SFleb. destruct x as [[]|[]| |[] ? ?]; reflexivity. }
  unfold ledStrip_update, in_range_cond, alarm_cond. rewrite !Hge. cbn [andb].
  eexists. split; [reflexivity|].
  unfold render_below.
  destruct (Z.eqb_spec (prev_range s) 100) as [E | E]; cbn [negb]; fields.
  - split; [exact E|]. split; [reflexivity|]. split; [reflexivity|].
    split; [reflexivity|]. intros Hne. contradiction.
  - split; [reflexivity|]. split; [reflexivity|]. split; [reflexivity|].
    split; [intros Heq; contradiction|]. intros _.
    split; [reflexivity|]. intros Hring.
    destruct (clearLEDs_pixels _ Hring) as [Hpx Hla].
    split; [exact Hpx|]. split; [exact Hla|].
    unfold lit_pixels. rewrite Hpx. reflexivity.
Qed.

Lemma X14_nan_reading_witness :
  exists s1 s2,
    ledStrip_update 0 (F32.of_Z 5000) tachometer = Some s1 /\
    lit_pixels (strip s1) = 7%nat /\
    ledStrip_update 10 S754_nan s1 = Some s2 /\
    lit_pixels (strip s2) = 0%nat /\ prev_range s2 = 100 /\
    ledStrip_update 20 S754_nan s2 = Some s2.
Proof.
  destruct (ledStrip_update 0 (F32.of_Z 5000) tachometer) as [s1|] eqn:E1;
    [|vm_compute in E1; discriminate].
  assert (Hring : ring (strip s1))
    by (apply (ledStrip_update_ring _ _ _ _ (proj1 tachometer_ready) E1)).
  assert (Hlit : lit_pixels (strip s1) = 7%nat).
  { assert (E' : (fun x => lit_pixels (strip x)) <$> Some s1 = Some 7%nat)
      by (rewrite <- E1; vm_compute; reflexivity).
    now injection E'. }
  assert (Hp : prev_range s1 <> 100).
  { assert (E' : prev_range <$> Some s1 = Some 9)
      by (rewrite <- E1; vm_compute; reflexivity).
    injection E' as ->. discriminate. }
  destruct (X14_nan_reading_clears 10 s1) as (s2 & E2 & Hp2 & _ & _ & _ & Hclear).
  destruct (Hclear Hp) as (_ & Hoff). destruct (Hoff Hring) as (_ & _ & Hlit2).
  destruct (X14_nan_reading_clears 20 s2) as (s3 & E3 & _ & _ & _ & Hsame & _).
  rewrite (Hsame Hp2) in E3.
  exists s1, s2. repeat split; assumption.
Defined.

End StripContents.

(** ** Invariants of the loop *)

Section LoopInvariants.

Lemma mode_config_prev_range g s : prev_range (mode_config g s) = prev_range s.
Proof. unfold mode_config. split_mode g; reflexivity. Qed.

Lemma ledStrip_update_prev_range now v s s' :
  ledStrip_update now v s = Some s' -> prev_range_ok (prev_range s').
Proof.
  unfold ledStrip_update, prev_range_ok.
  destruct (in_range_cond _ _).
  - destruct (numOfLEDs_of _ _) as [n|] eqn:Hn; cbn [mbind option_bind]; [|discriminate].
    intros [= <-]. rewrite render_in_range_prev.
    left. now apply numOfLEDs_range in Hn.
  - destruct (alarm_cond _ _); intros [= <-].
    + left. unfold render_alarm. fields.
      destruct (_ >? _); fields; [|unfold NUMNEOPIXELS; lia].
      destruct (warningState s =? 0); fields; unfold NUMNEOPIXELS; lia.
    + right. unfold render_below.
      destruct (Z.eqb_spec (prev_range s) 100); cbn [negb]; fields; auto.
Qed.

Lemma ledStrip_update_committed now v s s' :
  committed (strip s) -> ledStrip_update now v s = Some s' -> committed (strip s').
Proof.
  unfold committed, ledStrip_update. intros Hc.
  destruct (in_range_cond _ _).
  - destruct (numOfLEDs_of _ _) as [n|]; cbn [mbind option_bind]; [|discriminate].
    intros [= <-]. unfold render_in_range.
    destruct (negb _); fields; [reflexivity | assumption].
  - destruct (alarm_cond _ _); intros [= <-].
    + unfold render_alarm. fields.
      destruct (_ >? _); fields; [|assumption].
      destruct (warningState s =? 0); fields; reflexivity.
    + unfold render_below. destruct (negb _); fields; [reflexivity | assumption].
Qed.

(** One pass keeps both facts. *)
Lemma loop_keeps i s s' :
  loop i s = Some s' ->
  (prev_range_ok (prev_range s) -> prev_range_ok (prev_range s')) /\
  (committed (strip s) -> committed (strip s')).
Proof.
  intros H.
  destruct (loop_cases i s) as [E | (v & w & p & lbl & E)]; rewrite E in H.
  - injection H as <-.
    destruct (handle_button_frame (digitalRead i) (draw NoData s)) as (_ & _ & -> & ->).
    fields. auto.
  - destruct (gauge _ _ _ _ _ _ _) as [s1|] eqn:G; cbn in H; [|discriminate].
    injection H as <-.
    destruct (handle_button_frame (digitalRead i) s1) as (_ & _ & -> & ->).
    unfold gauge in G. split; intros H0.
    + now apply ledStrip_update_prev_range in G.
    + apply ledStrip_update_committed in G; [assumption|].
      destruct (OLED_update_frame (millis_display i) v w p lbl
                  (mode_config (gaugeType s) s)) as (_ & -> & _).
      destruct (mode_config_frame (gaugeType s) s) as (_ & _ & -> & _).
      exact H0.
Qed.

(** X12. Over any number of passes of the loop, [prev_range] is an index
    of the drawing loop (-1 to 15) or the marker 100 of the cleared strip,
    provided it is at the start, as the initial 100 is. *)
Theorem X12_prev_range_invariant (inputs : list Inputs) (s s' : Sketch) :
  prev_range_ok (prev_range s) -> run inputs s = Some s' ->
  prev_range_ok (prev_range s').
Proof.
  revert s. induction inputs as [|i inputs IH]; intros s Hs H; cbn [run] in H.
  - now injection H as <-.
  - destruct (loop i s) as [s1|] eqn:L; cbn [mbind option_bind] in H; [|discriminate].
    apply (IH s1); [|assumption]. now apply (loop_keeps i s s1 L).
Qed.

Lemma X12_prev_range_witness :
  let inputs := [iteration (fun _ => F32.of_Z 5000) 1000;
                 iteration (fun _ => F32.of_Z 7000) 2000] in
  prev_range_ok (prev_range initial) /\
  exists s', run inputs initial = Some s' /\ prev_range_ok (prev_range s') /\
             prev_range s' = 8.
Proof.
  intros inputs.
  assert (H0 : prev_range_ok (prev_range initial)) by (right; reflexivity).
  split; [exact H0|].
  destruct (run inputs initial) as [s'|] eqn:E; [|vm_compute in E; discriminate].
  exists s'. split; [reflexivity|].
  split; [exact (X12_prev_range_invariant inputs initial s' H0 E)|].
  assert (E' : option_map prev_range (Some s') = Some 8)
    by (rewrite <- E; vm_compute; reflexivity).
  now injection E'.
Defined.

(** X13. The loop never leaves an uncommitted write behind: if the ring
    shows the buffer before a sequence of passes, it shows the buffer after
    it; every branch of the renderer that writes pixels ends with
    [show]. *)
Theorem X13_writes_are_committed (inputs : list Inputs) (s s' : Sketch) :
  committed (strip s) -> run inputs s = Some s' -> committed (strip s').
Proof.
  revert s. induction inputs as [|i inputs IH]; intros s Hs H; cbn [run] in H.
  - now injection H as <-.
  - destruct (loop i s) as [s1|] eqn:L; cbn [mbind option_bind] in H; [|discriminate].
    apply (IH s1); [|assumption]. now apply (loop_keeps i s s1 L).
Qed.

Lemma X13_writes_witness :
  let inputs := [iteration (fun _ => F32.of_Z 5000) 1000] in
  committed (strip initial) /\
  exists s', run inputs initial = Some s' /\ committed (strip s') /\
             lit_pixels (strip s') = 7%nat.
Proof.
  intros inputs.
  assert (H0 : committed (strip initial)) by reflexivity.
  split; [exact H0|].
  destruct (run inputs initial) as [s'|] eqn:E; [|vm_compute in E; discriminate].
  exists s'. split; [reflexivity|].
  split; [exact (X13_writes_are_committed inputs initial s' H0 E)|].
  assert (E' : option_map (fun x => lit_pixels (strip x)) (Some s') = Some 7%nat)
    by (rewrite <- E; vm_compute; reflexivity).
  now injection E'.
Defined.

End LoopInvariants.

(** ** Edges of the renderer *)

Section RendererEdges.

(** At or above the high threshold the mapped value reaches the number of
    pixels. *)
Lemma displayValueConstrained_full l v x :
  F32.truncate v = Some x ->
  - 2 ^ 15 <= stagePT_0 l < stagePT_1 l -> stagePT_1 l < 2 ^ 15 ->
  stagePT_1 l <= x ->
  (x - stagePT_0 l) * NUMNEOPIXELS / (stagePT_1 l - stagePT_0 l) < 2 ^ 15 ->
  displayValueConstrained_of l v = Some NUMNEOPIXELS.
Proof.
  intros Hx Hl Hh Hge Hm. unfold displayValueConstrained_of, map, NUMNEOPIXELS in *.
  rewrite Hx. cbn [mbind option_bind]. cbv zeta.
  set (low := stagePT_0 l) in *. set (high := stagePT_1 l) in *.
  assert (Hq : 16 <= (x - low) * 16 / (high - low)).
  { apply Z.div_le_lower_bound; lia. }
  assert (Hp : (x - low) * 16 < 2 ^ 31).
  { pose proof (Z.div_mod ((x - low) * 16) (high - low) ltac:(lia)) as Hdm.
    pose proof (Z.mod_pos_bound ((x - low) * 16) (high - low) ltac:(lia)) as Hmod.
    set (q := (x - low) * 16 / (high - low)) in *.
    set (r := ((x - low) * 16) mod (high - low)) in *.
    assert (Hb : (high - low) * (q + 1) <= 65535 * 32768)
      by (apply Z.mul_le_mono_nonneg; lia).
    lia. }
  rewrite (to_long_id (high - low)) by lia.
  destruct (Z.eqb_spec (high - low) 0); [lia|].
  rewrite (to_long_id (x - low)) by lia.
  rewrite (to_long_id (16 - 0)) by lia.
  replace (16 - 0) with 16 by lia.
  rewrite (to_long_id ((x - low) * 16)) by lia.
  rewrite Z.quot_div_nonneg by lia.
  rewrite (to_long_id ((x - low) * 16 / (high - low))) by lia.
  rewrite (to_long_id (_ + 0)) by lia.
  cbn [mbind option_bind].
  rewrite (to_int_id (_ + 0)) by lia.
  unfold constrain.
  destruct (Z.ltb_spec ((x - low) * 16 / (high - low) + 0) 0); [lia|].
  destruct (Z.gtb_spec ((x - low) * 16 / (high - low) + 0) 16) as [_|Hle].
  - reflexivity.
  - f_equal. rewrite to_int_id by lia. lia.
Qed.

(** X1. The gauge is monotone between the thresholds: of two readings
    inside [low, high), the higher one never maps to a smaller value, so it
    never lights fewer pixels. *)
Theorem X1_gauge_monotone (l : Levels) (v1 v2 : spec_float) (x1 x2 c1 c2 : Z) :
  - 2 ^ 15 <= stagePT_0 l < stagePT_1 l -> stagePT_1 l < 2 ^ 15 ->
  F32.truncate v1 = Some x1 -> F32.truncate v2 = Some x2 ->
  stagePT_0 l <= x1 -> x1 <= x2 -> x2 < stagePT_1 l ->
  displayValueConstrained_of l v1 = Some c1 ->
  displayValueConstrained_of l v2 = Some c2 ->
  c1 <= c2 /\ 0 <= c1 /\ c2 < NUMNEOPIXELS.
Proof.
  intros Hl Hh Hx1 Hx2 Hlow H12 Hhigh Hc1 Hc2.
  pose proof (displayValueConstrained_linear l v1 x1 c1 Hx1 Hl Hh ltac:(lia) Hc1) as E1.
  pose proof (displayValueConstrained_linear l v2 x2 c2 Hx2 Hl Hh ltac:(lia) Hc2) as E2.
  destruct (map_linear x1 _ _ Hl Hh ltac:(lia)) as [_ B1].
  destruct (map_linear x2 _ _ Hl Hh ltac:(lia)) as [_ B2].
  subst c1 c2. unfold NUMNEOPIXELS in *.
  split; [|lia].
  apply Z.div_le_mono; lia.
Qed.

Lemma X1_gauge_monotone_witness :
  let l := levels tachometer in
  displayValueConstrained_of l (F32.of_Z 4500) = Some 2 /\
  displayValueConstrained_of l (F32.of_Z 5900) = Some 13 /\
  2 <= 13.
Proof.
  intros l.
  assert (Hc1 : displayValueConstrained_of l (F32.of_Z 4500) = Some 2)
    by (vm_compute; reflexivity).
  assert (Hc2 : displayValueConstrained_of l (F32.of_Z 5900) = Some 13)
    by (vm_compute; reflexivity).
  split; [exact Hc1|]. split; [exact Hc2|].
  assert (Hl : - 2 ^ 15 <= stagePT_0 l < stagePT_1 l)
    by (vm_compute; split; [discriminate | reflexivity]).
  assert (Hh : stagePT_1 l < 2 ^ 15) by (vm_compute; reflexivity).
  assert (Hx1 : F32.truncate (F32.of_Z 4500) = Some 4500) by (vm_compute; reflexivity).
  assert (Hx2 : F32.truncate (F32.of_Z 5900) = Some 5900) by (vm_compute; reflexivity).
  assert (Hlow : stagePT_0 l <= 4500) by (vm_compute; discriminate).
  assert (Hhigh : 5900 < stagePT_1 l) by (vm_compute; reflexivity).
  apply (X1_gauge_monotone l _ _ 4500 5900 2 13 Hl Hh Hx1 Hx2 Hlow ltac:(lia) Hhigh Hc1 Hc2).
Defined.

(** X15. With the alarm disabled, a reading at or above the high threshold
    is drawn at full scale: all 16 pixels are lit, as long as the mapped
    value still fits the [int] it is stored in. *)
Theorem X15_full_scale (now : Z) (v : spec_float) (x : Z) (s : Sketch) :
  ring (strip s) -> visible_colors (levels s) ->
  alarmOutsideRange (levels s) = false ->
  F32.ge v (F32.of_Z (stagePT_0 (levels s))) = true ->
  F32.truncate v = Some x ->
  - 2 ^ 15 <= stagePT_0 (levels s) < stagePT_1 (levels s) ->
  stagePT_1 (levels s) < 2 ^ 15 ->
  stagePT_1 (levels s) <= x ->
  (x - stagePT_0 (levels s)) * NUMNEOPIXELS
    / (stagePT_1 (levels s) - stagePT_0 (levels s)) < 2 ^ 15 ->
  prev_range s <> -1 ->
  exists s', ledStrip_update now v s = Some s' /\
    lit_pixels (strip s') = 16%nat /\ prev_range s' = -1.
Proof.
  intros Hring Hvis Hal Hlow Hx Hl Hh Hge Hm Hne.
  assert (Hin : in_range_cond (levels s) v = true).
  { unfold in_range_cond. rewrite Hlow, Hal. cbn. apply orb_true_r. }
  pose proof (displayValueConstrained_full _ _ _ Hx Hl Hh Hge Hm) as Hc.
  destruct (displayValueConstrained_range _ _ _ Hc) as [_ Hn].
  change (NUMNEOPIXELS - 1 - NUMNEOPIXELS) with (-1) in Hn.
  rewrite (in_range_call now v _ s Hin Hn). eexists. split; [reflexivity|].
  destruct (render_in_range_redraw (-1) s Hring Hvis ltac:(unfold NUMNEOPIXELS; lia) Hne)
    as (Hp & Hlit & _).
  split; [|exact Hp].
  change (NUMNEOPIXELS - Z.max (-1) 0) with 16 in Hlit. lia.
Qed.

Lemma X15_full_scale_witness :
  let s := mode_config 3 initial in
  exists s', ledStrip_update 0 (F32.of_Z 60) s = Some s' /\
             lit_pixels (strip s') = 16%nat.
Proof.
  intros s.
  assert (Hring : ring (strip s)) by reflexivity.
  pose proof (mode_config_visible 3 initial) as Hvis. fold s in Hvis.
  assert (Hal : alarmOutsideRange (levels s) = false) by reflexivity.
  assert (Hlow : F32.ge (F32.of_Z 60) (F32.of_Z (stagePT_0 (levels s))) = true)
    by (vm_compute; reflexivity).
  assert (Hx : F32.truncate (F32.of_Z 60) = Some 60) by (vm_compute; reflexivity).
  assert (Hl : - 2 ^ 15 <= stagePT_0 (levels s) < stagePT_1 (levels s))
    by (vm_compute; split; [discriminate | reflexivity]).
  assert (Hh : stagePT_1 (levels s) < 2 ^ 15) by (vm_compute; reflexivity).
  assert (Hge : stagePT_1 (levels s) <= 60) by (vm_compute; discriminate).
  assert (Hm : (60 - stagePT_0 (levels s)) * NUMNEOPIXELS
               / (stagePT_1 (levels s) - stagePT_0 (levels s)) < 2 ^ 15)
    by (vm_compute; reflexivity).
  assert (Hne : prev_range s <> -1) by (vm_compute; discriminate).
  destruct (X15_full_scale 0 _ 60 s Hring Hvis Hal Hlow Hx Hl Hh Hge Hm Hne)
    as (s' & E & Hlit & _).
  exists s'. split; assumption.
Defined.

(** The driver calls of [clearLEDs]: the sixteen writes of black, then
    [show]. *)
Lemma clearLEDs_calls st :
  calls (clearLEDs st)
  = CallShow :: List.map (fun i => CallSetPixelColor i 0)
                  [15; 14; 13; 12; 11; 10; 9; 8; 7; 6; 5; 4; 3; 2; 1; 0]
      ++ calls st.
Proof. destruct st as [px la ca]. reflexivity. Qed.

Lemma clearLEDs_writes_in_bounds :
  Forall in_bounds_call
    (CallShow :: List.map (fun i => CallSetPixelColor i 0)
                   [15; 14; 13; 12; 11; 10; 9; 8; 7; 6; 5; 4; 3; 2; 1; 0]).
Proof.
  cbn [List.map]. unfold NUMNEOPIXELS.
  repeat (constructor; [cbn; unfold NUMNEOPIXELS; try lia; exact I|]).
  constructor.
Qed.

(** X16. [clearLEDs] turns every pixel of the ring off and commits: the
    buffer and the ring are all black afterwards, after exactly sixteen
    writes, all inside the strip, and one [show]. *)
Theorem X16_clearLEDs_all_off (st : Adafruit_NeoPixel) :
  ring st ->
  pixels (clearLEDs st) = replicate 16 0 /\
  latched (clearLEDs st) = replicate 16 0 /\
  lit_pixels (clearLEDs st) = 0%nat /\
  exists writes,
    calls (clearLEDs st) = CallShow :: writes ++ calls st /\
    length writes = 16%nat /\ Forall in_bounds_call writes.
Proof.
  intros Hring. destruct (clearLEDs_pixels st Hring) as [Hp Hl].
  split; [exact Hp|]. split; [exact Hl|]. split.
  - unfold lit_pixels. rewrite Hp. reflexivity.
  - eexists. split; [apply clearLEDs_calls|]. split; [reflexivity|].
    pose proof clearLEDs_writes_in_bounds as H. now inversion H.
Qed.

Lemma X16_clearLEDs_witness :
  exists s', ledStrip_update 0 (F32.of_Z 5000) tachometer = Some s' /\
    ring (strip s') /\ lit_pixels (strip s') = 7%nat /\
    lit_pixels (clearLEDs (strip s')) = 0%nat.
Proof.
  destruct (ledStrip_update 0 (F32.of_Z 5000) tachometer) as [s'|] eqn:E;
    [|vm_compute in E; discriminate].
  exists s'. split; [reflexivity|].
  assert (Hring : ring (strip s')).
  { apply (ledStrip_update_ring _ _ _ _ (proj1 tachometer_ready) E). }
  split; [exact Hring|]. split.
  - assert (E' : option_map (fun x => lit_pixels (strip x)) (Some s') = Some 7%nat)
      by (rewrite <- E; vm_compute; reflexivity).
    now injection E'.
  - apply (X16_clearLEDs_all_off (strip s') Hring).
Defined.

Lemma setPixelColor_calls n c st :
  calls (setPixelColor n c st) = CallSetPixelColor (to_uint16 n) c :: calls st.
Proof. reflexivity. Qed.

Lemma count_down_calls l stop :
  0 <= stop ->
  forall (rounds : nat) (i : Z) (st : Adafruit_NeoPixel),
    i < NUMNEOPIXELS -> Z.of_nat rounds = i - stop + 1 ->
    exists new,
      calls (count_down rounds i stop (paint l) st) = new ++ calls st /\
      Forall in_bounds_call new.
Proof.
  intros Hstop rounds.
  induction rounds as [|rounds IH]; intros i st Hi Hr; cbn [count_down].
  - exists []. split; [reflexivity | constructor].
  - destruct (Z.geb_spec i stop) as [Hge | Hlt]; [|lia].
    rewrite paint_eq.
    destruct (IH (i - 1) (setPixelColor i (stage_color l i) st) ltac:(lia) ltac:(lia))
      as (new & E & Hall).
    rewrite setPixelColor_calls in E.
    exists (new ++ [CallSetPixelColor (to_uint16 i) (stage_color l i)]).
    split; [rewrite E; now rewrite <- app_assoc|].
    apply Forall_app. split; [assumption|].
    constructor; [|constructor].
    unfold in_bounds_call, to_uint16, NUMNEOPIXELS in *. rewrite Z.mod_small; lia.
Qed.

Lemma count_down_calls_below l :
  forall (rounds : nat) (i : Z) (st : Adafruit_NeoPixel),
    -1 <= i < NUMNEOPIXELS -> Z.of_nat rounds = i + 2 ->
    exists new,
      calls (count_down rounds i (-1) (paint l) st)
      = CallSetPixelColor 65535 (stage_color l (-1)) :: new ++ calls st /\
      Forall in_bounds_call new.
Proof.
  induction rounds as [|rounds IH]; intros i st Hi Hr; [lia|].
  cbn [count_down].
  destruct (Z.geb_spec i (-1)) as [Hge | Hlt]; [|lia].
  destruct (Z.eq_dec i (-1)) as [-> | Hne].
  - assert (rounds = 0%nat) by lia. subst rounds. cbn [count_down].
    rewrite paint_eq. exists []. split; [reflexivity | constructor].
  - rewrite paint_eq.
    destruct (IH (i - 1) (setPixelColor i (stage_color l i) st) ltac:(lia) ltac:(lia))
      as (new & E & Hall).
    rewrite setPixelColor_calls in E.
    exists (new ++ [CallSetPixelColor (to_uint16 i) (stage_color l i)]).
    split; [rewrite E; now rewrite <- app_assoc|].
    apply Forall_app. split; [assumption|].
    constructor; [|constructor].
    unfold in_bounds_call, to_uint16, NUMNEOPIXELS in *. rewrite Z.mod_small; lia.
Qed.

(** X17. The writes of an in-range redraw stay inside the strip, with one
    exception: when the mapped value reaches the number of pixels, so that
    [numOfLEDs] is -1, the drawing loop runs once more and its last write
    is [setPixelColor(65535, ...)], the index -1 as the driver receives it,
    outside the strip. *)
Theorem X17_redraw_write_indices (now : Z) (v : spec_float) (n : Z) (s : Sketch) :
  in_range_cond (levels s) v = true -> numOfLEDs_of (levels s) v = Some n ->
  prev_range s <> n ->
  exists s' new,
    ledStrip_update now v s = Some s' /\
    calls (strip s') = CallShow :: new ++ calls (strip s) /\
    (0 <= n -> Forall in_bounds_call new) /\
    (n = -1 ->
       exists rest,
         new = CallSetPixelColor 65535 (stage_color (levels s) (-1)) :: rest /\
         Forall in_bounds_call rest).
Proof.
  intros Hin Hn Hne.
  destruct (numOfLEDs_range _ _ _ Hn) as [Hr _]. unfold NUMNEOPIXELS in Hr.
  rewrite (in_range_call now v n s Hin Hn).
  unfold render_in_range.
  destruct (Z.eqb_spec (prev_range s) n) as [|_]; [contradiction|].
  cbn [negb]. fields.
  change (to_int (numPixels (clearLEDs (strip s)) - 1)) with 15.
  unfold for_down.
  pose proof clearLEDs_writes_in_bounds as Hclear.
  pose proof (clearLEDs_calls (strip s)) as Ecl.
  set (cl := CallShow :: List.map (fun i => CallSetPixelColor i 0)
                           [15; 14; 13; 12; 11; 10; 9; 8; 7; 6; 5; 4; 3; 2; 1; 0]) in *.
  destruct (Z.eq_dec n (-1)) as [-> | Hn1].
  - destruct (count_down_calls_below (levels s) (Z.to_nat (15 - -1 + 1)) 15
                (clearLEDs (strip s)) ltac:(unfold NUMNEOPIXELS; lia) ltac:(lia))
      as (new & E & Hall).
    eexists.
    exists (CallSetPixelColor 65535 (stage_color (levels s) (-1)) :: new ++ cl).
    split; [reflexivity|].
    fields. cbn [show calls]. rewrite E, Ecl.
    split; [|split; [lia|]].
    + cbn [app]. now rewrite <- app_assoc.
    + intros _. eexists. split; [reflexivity|].
      apply Forall_app. split; assumption.
  - destruct (count_down_calls (levels s) n ltac:(lia) (Z.to_nat (15 - n + 1)) 15
                (clearLEDs (strip s)) ltac:(unfold NUMNEOPIXELS; lia) ltac:(lia))
      as (new & E & Hall).
    eexists. exists (new ++ cl). split; [reflexivity|].
    fields. cbn [show calls]. rewrite E, Ecl.
    split; [|split; [|lia]].
    + now rewrite <- app_assoc.
    + intros _. apply Forall_app. split; assumption.
Qed.

Lemma X17_redraw_write_witness :
  let s := mode_config 3 initial in
  numOfLEDs_of (levels s) (F32.of_Z 60) = Some (-1) /\
  exists s' rest,
    ledStrip_update 0 (F32.of_Z 60) s = Some s' /\
    calls (strip s') = CallShow :: CallSetPixelColor 65535 (Wheel 0) :: rest.
Proof.
  intros s.
  assert (Hin : in_range_cond (levels s) (F32.of_Z 60) = true) by (vm_compute; reflexivity).
  assert (Hn : numOfLEDs_of (levels s) (F32.of_Z 60) = Some (-1)) by (vm_compute; reflexivity).
  assert (Hne : prev_range s <> -1) by (vm_compute; discriminate).
  split; [exact Hn|].
  destruct (X17_redraw_write_indices 0 _ _ s Hin Hn Hne) as (s' & new & E & Ec & _ & Hb).
  destruct (Hb eq_refl) as (rest & -> & _).
  exists s', (rest ++ calls (strip s)). split; [exact E|].
  rewrite Ec. reflexivity.
Defined.

End RendererEdges.

(** ** The "No Data" path and unusual readings in the loop *)

Section LoopEdges.

Lemma handle_button_released s :
  handle_button true s = set_button_was_pressed false s.
Proof. reflexivity. Qed.

Lemma loop_tachometer i s :
  gaugeType s = 1 -> F32.ne (ecu_req i ENGINE_RPM) NO_DATA = true ->
  loop i s =
    s1 ← gauge (millis_display i) (millis_strip i) (ecu_req i ENGINE_RPM) 4 0 "RPM"
           (set_levels 4200 6200 5 2 255 48 86 true s);
    Some (handle_button (digitalRead i) s1).
Proof. intros Hg Hne. unfold loop. rewrite Hg, Hne. reflexivity. Qed.

(** X18. "No Data" can outlive the outage: the picture loop of the no-data
    path does not touch [lastDisplayValue], so when the ECU answers again
    with the value recorded before the outage, the display updater takes
    it for unchanged and draws nothing; the screen keeps "No Data" although
    the reading is valid (tachometer mode). *)
Theorem X18_no_data_outlives_outage (i1 i2 : Inputs) (s : Sketch) :
  gaugeType s = 1 ->
  ecu_req i1 ENGINE_RPM = NO_DATA -> digitalRead i1 = true ->
  F32.ne (ecu_req i2 ENGINE_RPM) NO_DATA = true ->
  F32.ne (lastDisplayValue s) (ecu_req i2 ENGINE_RPM) = false ->
  exists s1, loop i1 s = Some s1 /\
    oled s1 = NoData :: oled s /\
    forall s2, loop i2 s1 = Some s2 -> oled s2 = NoData :: oled s.
Proof.
  intros Hg Hno Hpin Hdata Hsame.
  rewrite loop_no_data;
    [|rewrite Hg; discriminate
     |rewrite Hg; cbn [queries]; constructor; [exact Hno | constructor]].
  rewrite Hpin, handle_button_released. eexists. split; [reflexivity|].
  split; [reflexivity|].
  intros s2 H2.
  rewrite loop_tachometer in H2 by (fields; assumption).
  unfold gauge in H2.
  rewrite OLED_update_same in H2 by (cbn; exact Hsame).
  destruct (ledStrip_update _ _ _) as [s3|] eqn:L; cbn [mbind option_bind] in H2;
    [|discriminate].
  injection H2 as <-.
  destruct (handle_button_frame (digitalRead i2) s3) as (_ & -> & _).
  apply ledStrip_update_frame in L. destruct L as (_ & -> & _).
  reflexivity.
Qed.

Lemma X18_no_data_witness :
  let shown := OLED_update 1000 (F32.of_Z 3000) 4 0 "RPM" initial in
  let i1 := iteration (fun _ => NO_DATA) 2000 in
  let i2 := iteration (fun _ => F32.of_Z 3000) 3000 in
  oled shown = [Reading "RPM" (F32.of_Z 3000) 4 0] /\
  exists s1 s2, loop i1 shown = Some s1 /\ loop i2 s1 = Some s2 /\
    oled s2 = [NoData; Reading "RPM" (F32.of_Z 3000) 4 0].
Proof.
  intros shown i1 i2.
  assert (Ho : oled shown = [Reading "RPM" (F32.of_Z 3000) 4 0]) by (vm_compute; reflexivity).
  split; [exact Ho|].
  assert (Hg : gaugeType shown = 1) by reflexivity.
  assert (Hno : ecu_req i1 ENGINE_RPM = NO_DATA) by reflexivity.
  assert (Hpin : digitalRead i1 = true) by reflexivity.
  assert (Hdata : F32.ne (ecu_req i2 ENGINE_RPM) NO_DATA = true) by (vm_compute; reflexivity).
  assert (Hsame : F32.ne (lastDisplayValue shown) (ecu_req i2 ENGINE_RPM) = false)
    by (vm_compute; reflexivity).
  destruct (X18_no_data_outlives_outage i1 i2 shown Hg Hno Hpin Hdata Hsame)
    as (s1 & E1 & _ & Hnext).
  destruct (loop i2 s1) as [s2|] eqn:E2.
  - exists s1, s2. split; [exact E1|]. split; [exact E2|].
    rewrite (Hnext s2 eq_refl), Ho. reflexivity.
  - exfalso.
    assert (E1' : Some s1 = Some (handle_button true (draw NoData shown)))
      by (rewrite <- E1; vm_compute; reflexivity).
    injection E1' as ->. vm_compute in E2. discriminate.
Defined.

Lemma replicate_shift {A} (n : nat) (x : A) l :
  replicate n x ++ x :: l = x :: replicate n x ++ l.
Proof. induction n as [|n IH]; cbn; [reflexivity | now rewrite IH]. Qed.

(** X19. The no-data path is not rate limited and touches nothing else:
    while every query answers the sentinel and the button stays released,
    each pass draws "No Data" once more, and the strip, the configuration,
    the renderer's marker and the mode stay as they were. *)
Theorem X19_no_data_every_pass (inputs : list Inputs) (s : Sketch) :
  gaugeType s <> 8 ->
  Forall (fun i => (forall pid, ecu_req i pid = NO_DATA) /\ digitalRead i = true) inputs ->
  exists s', run inputs s = Some s' /\
    oled s' = replicate (length inputs) NoData ++ oled s /\
    strip s' = strip s /\ levels s' = levels s /\
    prev_range s' = prev_range s /\ gaugeType s' = gaugeType s.
Proof.
  intros H8 Hall. revert s H8.
  induction Hall as [|i inputs [Hno Hpin] _ IH]; intros s H8.
  - exists s. repeat split.
  - cbn [run].
    rewrite loop_no_data; [|assumption|].
    2:{ apply Forall_forall. intros pid _. apply Hno. }
    cbn [mbind option_bind]. rewrite Hpin, handle_button_released.
    destruct (IH (set_button_was_pressed false (draw NoData s))) as (s' & E & Ho & Es & El & Ep & Eg);
      [exact H8|].
    exists s'. split; [exact E|]. fields.
    rewrite Ho, Es, El, Ep, Eg. cbn [length replicate].
    rewrite replicate_shift. repeat split.
Qed.

Lemma X19_no_data_witness :
  let inputs := [iteration (fun _ => NO_DATA) 10; iteration (fun _ => NO_DATA) 11;
                 iteration (fun _ => NO_DATA) 12] in
  exists s', run inputs initial = Some s' /\
    oled s' = [NoData; NoData; NoData] /\ strip s' = strip initial.
Proof.
  intros inputs.
  destruct (X19_no_data_every_pass inputs initial) as (s' & E & Ho & Es & _).
  - cbn. discriminate.
  - repeat (constructor; [split; [intros pid; reflexivity | reflexivity]|]).
    constructor.
  - exists s'. split; [exact E|]. split; [exact Ho | exact Es].
Defined.

(** X20. An infinite reading and the conversion to [long]: with the alarm
    disabled, [+infinity] passes the range test and reaches the conversion
    inside [map], which C leaves undefined (the model has no result); with
    the alarm enabled it takes the alarm branch and is never converted.
    Instant MPG (alarm disabled) divides by the air flow, so a zero air
    flow at a positive speed is such a reading. *)
Theorem X20_infinite_reading (now : Z) (s : Sketch) :
  F32.of_Z (stagePT_0 (levels s)) <> S754_nan ->
  F32.of_Z (stagePT_1 (levels s)) <> S754_nan ->
  ledStrip_update now (S754_infinity false) s
  = if alarmOutsideRange (levels s)
    then Some (render_alarm (to_ulong now) s)
    else None.
Proof.
  intros Hlow Hhigh.
  assert (Hge : forall x, x <> S754_nan -> F32.ge (S754_infinity false) x = true).
  { intros x Hx. unfold F32.ge, SFleb.
    destruct x as [[]|[]| |[] ? ?]; try reflexivity. contradiction. }
  assert (Hlt : forall x, F32.lt (S754_infinity false) x = false).
  { intros x. unfold F32.lt, SFltb. destruct x as [[]|[]| |[] ? ?]; reflexivity. }
  unfold ledStrip_update, in_range_cond, alarm_cond.
  rewrite (Hge _ Hlow), (Hge _ Hhigh), Hlt.
  destruct (alarmOutsideRange (levels s)); reflexivity.
Qed.

Lemma X20_infinite_reading_witness :
  let answer := fun pid => match pid with MAF_SENSOR => S754_zero false | _ => F32.of_Z 30 end in
  let s := mode_config 3 initial in
  F32.div (F32.of_Z 30) (S754_zero false) = S754_infinity false /\
  ledStrip_update 1000 (S754_infinity false) s = None /\
  loop (iteration answer 1000) (set_gaugeType 3 initial) = None.
Proof.
  intros answer s. split; [reflexivity|]. split.
  - rewrite (X20_infinite_reading 1000 s); [reflexivity | | ]; vm_compute; discriminate.
  - vm_compute. reflexivity.
Defined.

End LoopEdges.
